(** * Export 2KML: a shallow embedding of [export2kml.py]

    The export engine of the QGIS plugin turns the checked layers of a table
    into one KML document (vector features become Placemarks, rasters become
    GroundOverlays backed by a rendered PNG) and then writes either the bare
    document or a zip archive (KMZ) at the chosen output path.

    Modelling conventions.
    - Python [str] values are [string]s (bytes; [strip] and [lower] act on
      the ASCII range), Python [int]s are [Z]; [os.path] is [posixpath].
    - Python [float]s are exact rationals [Q]: binary64 rounding is outside
      the model, so [a + b * n] and [int(k / n * 100)] are computed
      exactly; [str] of a float is a function supplied by the host.
    - [xml.etree.ElementTree] elements are a first-order tree; the in-place
      [SubElement]/[append] calls become functions returning the parent
      with the child added at the end.
    - OGR, GDAL, OSR and the QGIS renderer are external: their answers are
      the fields of a [Host] record.
    - Exceptions are the [Raise] outcome of [Exc]; the effects of
      [run_export] (files, progress bar, message boxes) are threaded
      through a state and survive a raised exception, as they do in
      Python. *)

From Stdlib Require Import ZArith QArith Lqa String Ascii List Lia.
From stdpp Require Import base option list gmap strings pretty.

Set Warnings "-register-all".

Local Open Scope string_scope.
Local Open Scope Z_scope.

(** ** Python strings and [os.path] (POSIX flavour) *)

Module Py.

(** Truth value of a [str]: only the empty string is false. *)
Definition truthy (s : string) : bool :=
  match s with EmptyString => false | String _ _ => true end.

(** [d.get(k)] followed by a truth test: [Some v] exactly when the key is
    present with a non-empty value. *)
Definition get_truthy (d : gmap string string) (k : string) : option string :=
  match d !! k with
  | Some v => if truthy v then Some v else None
  | None => None
  end.

(** [a or b] where [a] is the result of [d.get(k)]. *)
Definition or_else (a : option string) (b : string) : string :=
  match a with Some v => v | None => b end.

(** ASCII whitespace as [str.strip()] sees it: TAB..CR, FS..US, space. *)
Definition isspace (c : ascii) : bool :=
  let n := Z.of_nat (nat_of_ascii c) in
  ((9 <=? n) && (n <=? 13)) || ((28 <=? n) && (n <=? 32)).

Fixpoint lstrip (s : string) : string :=
  match s with
  | EmptyString => EmptyString
  | String c r => if isspace c then lstrip r else s
  end.

Definition rstrip (s : string) : string :=
  String.rev (lstrip (String.rev s)).

Definition strip (s : string) : string := rstrip (lstrip s).

Definition lower_ascii (c : ascii) : ascii :=
  let n := nat_of_ascii c in
  if ((65 <=? Z.of_nat n) && (Z.of_nat n <=? 90))%Z
  then ascii_of_nat (n + 32) else c.

Fixpoint lower (s : string) : string :=
  match s with
  | EmptyString => EmptyString
  | String c r => String (lower_ascii c) (lower r)
  end.

(** [s.rfind(c)], [-1] when absent. *)
Fixpoint rfind_from (c : ascii) (s : string) (i : Z) (last : Z) : Z :=
  match s with
  | EmptyString => last
  | String a r => rfind_from c r (i + 1) (if Ascii.eqb a c then i else last)
  end.

Definition rfind (c : ascii) (s : string) : Z := rfind_from c s 0 (-1).

(** [s[i:j]] for [0 <= i]. *)
Definition slice (s : string) (i j : Z) : string :=
  String.substring (Z.to_nat i) (Z.to_nat (j - i)) s.

(** [s[i:]] for [0 <= i]. *)
Definition slice_from (s : string) (i : Z) : string :=
  String.substring (Z.to_nat i) (String.length s - Z.to_nat i) s.

(** [posixpath.basename]: [p[p.rfind('/') + 1:]]. *)
Definition basename (p : string) : string :=
  slice_from p (rfind "/" p + 1).

Fixpoint all_dots (s : string) : bool :=
  match s with
  | EmptyString => true
  | String c r => Ascii.eqb c "." && all_dots r
  end.

(** [posixpath.splitext(p)[0]]: cut at the last dot, unless that dot comes
    before the last slash or only dots precede it in the file name. *)
Definition splitext_root (p : string) : string :=
  let sepIndex := rfind "/" p in
  let dotIndex := rfind "." p in
  if sepIndex <? dotIndex
  then if all_dots (slice p (sepIndex + 1) dotIndex)
       then p else slice p 0 dotIndex
  else p.

Definition startswith_slash (s : string) : bool :=
  match s with String "/" _ => true | _ => false end.

Definition endswith_slash (s : string) : bool :=
  startswith_slash (String.rev s).

(** [posixpath.join(a, b)]. *)
Definition join (a b : string) : string :=
  if startswith_slash b then b
  else if negb (truthy a) || endswith_slash a then a +:+ b
  else a +:+ "/" +:+ b.

End Py.

(** ** Exceptions *)

Inductive Exc (A : Type) : Type :=
| Return (a : A)
| Raise (msg : string).
Arguments Return {A} a.
Arguments Raise {A} msg.

#[global] Instance exc_ret : MRet Exc := fun A a => Return a.
#[global] Instance exc_bind : MBind Exc := fun A B f m =>
  match m with
  | Return a => f a
  | Raise msg => Raise msg
  end.

(** ** The element tree of [xml.etree.ElementTree] *)

Inductive Element : Type :=
| Elem (tag : string) (attrib : list (string * string))
       (text : option string) (children : list Element).

Definition tag (e : Element) : string :=
  match e with Elem t _ _ _ => t end.
Definition attrib (e : Element) : list (string * string) :=
  match e with Elem _ a _ _ => a end.
Definition text (e : Element) : option string :=
  match e with Elem _ _ x _ => x end.
Definition children (e : Element) : list Element :=
  match e with Elem _ _ _ cs => cs end.

(** [parent.append(child)]; also the effect on [parent] of
    [ET.SubElement(parent, ...)] once the new child has been filled in. *)
Definition append (parent child : Element) : Element :=
  match parent with
  | Elem t a x cs => Elem t a x (cs ++ [child])%list
  end.

(** [for c in wrap: parent.append(c)]. *)
Definition extend (parent : Element) (cs : list Element) : Element :=
  fold_left append cs parent.

(** A leaf [ET.SubElement(_, tag).text = txt]. *)
Definition leaf (t txt : string) : Element := Elem t [] (Some txt) [].

(** [e.findall(tag)]: the direct children with that tag, in order. *)
Definition findall (t : string) (e : Element) : list Element :=
  filter (fun c => tag c = t) (children e).

(** [e.find(tag)]: the first direct child with that tag. *)
Definition find (t : string) (e : Element) : option Element :=
  head (findall t e).

(** [make_kml_root]: the [Document] starts empty; the root [kml] element
    holds it as its only child, so the root is rebuilt from the final
    [Document] when the tree is serialized. *)
Definition empty_document : Element := Elem "Document" [] None [].

Definition kml_root (doc : Element) : Element :=
  Elem "kml" [("xmlns", "http://www.opengis.net/kml/2.2")] None [doc].

Definition make_kml_root : Element * Element :=
  (kml_root empty_document, empty_document).

(** ** OGR: field values, geometries, features, layers *)

(** What [Feature.GetField] hands back for the scalar field types. *)
Inductive Value : Type :=
| VNone
| VInt (n : Z)
| VReal (x : Q)
| VStr (s : string).

(** A vertex: x, y and an optional elevation. *)
Definition Coord : Type := Q * Q * option Q.

(** Simple-feature geometries; the Multi* types and GeometryCollection are
    [Collection]s of parts. [Point None] is [POINT EMPTY]. *)
Inductive Geometry : Type :=
| Point (c : option Coord)
| LineString (cs : list Coord)
| Polygon (rings : list (list Coord))
| Collection (parts : list Geometry).

Record Feature : Type := {
  GetField : string → Value;
  GetGeometryRef : option Geometry
}.

Record Layer : Type := {
  field_names : list string;   (* GetLayerDefn(): the schema, in order *)
  features : list Feature      (* the layer's native iteration order *)
}.

Record DataSource : Type := { layers : list Layer }.

(** [ds.GetLayer(0)] is [None] when the data source has no layer. *)
Definition GetLayer0 (ds : DataSource) : option Layer := head (layers ds).

(** ** GDAL / OSR / QGIS: rasters *)

(** The six coefficients [gt[0] .. gt[5]] of [GetGeoTransform()]. *)
Record GeoTransform : Type := {
  gt0 : Q;   (* x of the upper-left corner *)
  gt1 : Q;   (* pixel width *)
  gt2 : Q;
  gt3 : Q;   (* y of the upper-left corner *)
  gt4 : Q;
  gt5 : Q    (* pixel height, negative for a north-up raster *)
}.

Record Dataset : Type := {
  GetProjection : string;
  GetGeoTransform : GeoTransform;
  RasterXSize : Z;
  RasterYSize : Z
}.

(** How the code builds its two spatial references. *)
Inductive SpatialReference : Type :=
| FromWkt (wkt : string)      (* osr.SpatialReference(wkt=...) *)
| ImportFromEPSG (code : Z).  (* tgt.ImportFromEPSG(4326) *)

Record RasterLayer : Type := {
  isValid : bool;
  width : Z;
  height : Z
}.

(** ** The binding dictionary [props]

    The Python dict maps a key to a string, except [fields], which holds a
    list of field names (docstring of [add_vector_layer]); the two kinds of
    entries are kept apart. *)
Record Props : Type := {
  bindings : gmap string string;
  fields : option (list string)
}.

(** ** The host: every answer the export engine gets from outside *)

Record Host : Type := {
  float_str : Q → string;                        (* str(x) for a float *)
  ogr_Open : string → Exc (option DataSource);   (* ogr.Open(path) *)
  wkb_copy : Geometry → Exc Geometry;
      (* ogr.CreateGeometryFromWkb(geom.ExportToWkb()) *)
  ExportToKML : Geometry → option string;        (* None when OGR gives up *)
  fromstring : string → Exc Element;             (* ET.fromstring *)
  QgsRasterLayer : string → RasterLayer;
  QImage_save : Z → Z → string → bool;
      (* rgb.save(img_path, 'PNG') for a width x height image: False for a
         null image or a path that cannot be written *)
  gdal_Open : string → Exc (option Dataset);
  IsSame : SpatialReference → SpatialReference → bool;
  gdal_Warp : Dataset → Exc Dataset;
      (* gdal.Warp('', ds, format='VRT', dstSRS='EPSG:4326') *)
  mkdtemp : string                               (* tempfile.mkdtemp() *)
}.

(** ** Files, the progress bar and the message boxes *)

Inductive File : Type :=
| FKml (root : Element)                  (* a serialized document *)
| FPng (source : string) (w h : Z)       (* the opaque rendering of a raster *)
| FZip (entries : list (string * File)). (* archive members, in write order *)

Inductive ProgressCall : Type :=
| setValue (v : Z)
| setVisible (b : bool).

Record State : Type := {
  files : gmap string File;
  progress_calls : list ProgressCall;   (* calls received by the progress bar *)
  message_bar : list string;            (* messageBar().pushMessage texts *)
  critical : list string;               (* QMessageBox.critical texts *)
  dlg_closed : bool
}.

Definition with_files (f : gmap string File → gmap string File) (st : State) : State :=
  {| files := f (files st); progress_calls := progress_calls st;
     message_bar := message_bar st; critical := critical st;
     dlg_closed := dlg_closed st |}.

Definition with_progress (c : ProgressCall) (st : State) : State :=
  {| files := files st; progress_calls := (progress_calls st ++ [c])%list;
     message_bar := message_bar st; critical := critical st;
     dlg_closed := dlg_closed st |}.

Definition with_message (m : string) (st : State) : State :=
  {| files := files st; progress_calls := progress_calls st;
     message_bar := (message_bar st ++ [m])%list; critical := critical st;
     dlg_closed := dlg_closed st |}.

Definition with_critical (m : string) (st : State) : State :=
  {| files := files st; progress_calls := progress_calls st;
     message_bar := message_bar st; critical := (critical st ++ [m])%list;
     dlg_closed := dlg_closed st |}.

Definition with_closed (st : State) : State :=
  {| files := files st; progress_calls := progress_calls st;
     message_bar := message_bar st; critical := critical st;
     dlg_closed := true |}.

(** Effectful code: a state that outlives a raised exception. *)
Definition M (A : Type) : Type := State → Exc A * State.

#[global] Instance M_ret : MRet M := fun A a st => (Return a, st).
#[global] Instance M_bind : MBind M := fun A B f m st =>
  match m st with
  | (Return a, st') => f a st'
  | (Raise msg, st') => (Raise msg, st')
  end.

Definition raise {A : Type} (msg : string) : M A := fun st => (Raise msg, st).
Definition lift {A : Type} (r : Exc A) : M A := fun st => (r, st).
Definition modify (f : State → State) : M unit := fun st => (Return tt, f st).
Definition when (b : bool) (m : M unit) : M unit := if b then m else mret tt.

(** ** The export engine *)

(** [KML_PROPS]: the property columns of the layer table. *)
Definition KML_PROPS : list string :=
  ["Name"; "description"; "timestamp"; "begin"; "end";
   "altitudeMode"; "tessellate"; "extrude"; "visibility";
   "drawOrder"; "icon"].

(** One row of the layer table, as [run_export] reads it. *)
Record Row : Type := {
  checked : bool;               (* tbl.cellWidget(i, 0).isChecked() *)
  is_raster : bool;             (* isinstance(lyr, QgsRasterLayer) *)
  source : string;              (* lyr.source() *)
  currentText : nat → string    (* tbl.cellWidget(i, j).currentText() *)
}.

(** The plugin object: the chosen output path (absent until
    [select_output] ran), the optional progress bar, the table. *)
Record Plugin : Type := {
  output_path : option string;
  progressBar : bool;
  tableLayers : list Row
}.

(** [int(x)] for a float [x]: truncation toward zero. *)
Definition py_int (x : Q) : Z := Z.quot (Qnum x) (Z.pos (Qden x)).




Section Engine.

Variable host : Host.

(** [str(v)] for a field value. *)
Definition py_str (v : Value) : string :=
  match v with
  | VNone => "None"
  | VInt n => pretty n
  | VReal x => float_str host x
  | VStr s => s
  end.

(** [str(feat.GetField(nm) if nm in avail else nm)]. *)
Definition field_or_literal (avail : list string) (feat : Feature)
    (nm : string) : string :=
  if decide (nm ∈ avail) then py_str (GetField feat nm) else nm.

(** One [<Data name=fld><value>..</value></Data>] entry. *)
Definition data_entry (feat : Feature) (fld : string) : Element :=
  Elem "Data" [("name", fld)] None [leaf "value" (py_str (GetField feat fld))].

(** The [<ExtendedData>] element and the loop that fills it. *)
Definition extended_data (avail : list string) (feat : Feature)
    (flds : list string) : Element :=
  fold_left
    (fun ext fld =>
       if decide (fld ∈ avail) then append ext (data_entry feat fld) else ext)
    flds (Elem "ExtendedData" [] None []).

(** [f'{x}'] for the result of [ExportToKML()]. *)
Definition format_kml (x : option string) : string :=
  match x with Some s => s | None => "None" end.

(** Geometry to KML: clone through WKB, export, parse inside a wrapper;
    the wrapper's children are what gets attached. *)
Definition geometry_kml (geom : Geometry) : Exc (list Element) :=
  k ← wkb_copy host geom;
  wrap ← fromstring host ("<r>" +:+ format_kml (ExportToKML host k) +:+ "</r>");
  mret (children wrap).

(** The children given to a Placemark before its geometry. *)
Definition placemark_head (props : Props) (avail : list string)
    (feat : Feature) : Element :=
  let pm := Elem "Placemark" [] None [] in
  let pm :=
    match Py.get_truthy (bindings props) "name" with
    | Some nm => append pm (leaf "name" (field_or_literal avail feat nm))
    | None => pm
    end in
  let pm :=
    match Py.get_truthy (bindings props) "description" with
    | Some d => append pm (leaf "description" (field_or_literal avail feat d))
    | None => pm
    end in
  match fields props with
  | Some (fld :: flds) => append pm (extended_data avail feat (fld :: flds))
  | _ => pm
  end.

(** The body of [for feat in layer]. *)
Definition placemark (props : Props) (avail : list string)
    (feat : Feature) : Exc Element :=
  let pm := placemark_head props avail feat in
  match GetGeometryRef feat with
  | Some geom => cs ← geometry_kml geom; mret (extend pm cs)
  | None => mret pm
  end.

(** [for feat in layer]: one Placemark appended per feature. *)
Fixpoint add_features (props : Props) (avail : list string)
    (folder : Element) (feats : list Feature) : Exc Element :=
  match feats with
  | [] => mret folder
  | feat :: rest =>
      pm ← placemark props avail feat;
      add_features props avail (append folder pm) rest
  end.

(** [add_vector_layer(doc, path, props)]: the new state of [doc]. The
    Folder is shared with [doc] from its creation on, so attaching the
    finished Folder yields the same tree; a tree abandoned by an
    exception is never serialized. *)
Definition add_vector_layer (doc : Element) (path : string)
    (props : Props) : Exc Element :=
  ds ← ogr_Open host path;
  match ds with
  | None => Raise ("Cannot open vector " +:+ path)
  | Some ds =>
      match GetLayer0 ds with
      | None => Raise "'NoneType' object has no attribute 'GetLayerDefn'"
      | Some layer =>
          let folder_label :=
            Py.or_else (Py.get_truthy (bindings props) "folder_name")
                       (Py.splitext_root (Py.basename path)) in
          let folder := append (Elem "Folder" [] None [])
                               (leaf "name" folder_label) in
          let avail := field_names layer in
          folder ← add_features props avail folder (features layer);
          mret (append doc folder)
      end
  end.

(** The Coordinate Reprojector (step 8 of [add_raster_layer]): the
    dataset whose geotransform is read. *)
Definition geographic_view (ds : Dataset) : Exc Dataset :=
  let src := FromWkt (GetProjection ds) in
  let tgt := ImportFromEPSG 4326 in
  if negb (IsSame host src tgt) then gdal_Warp host ds else mret ds.

(** [(maxy, miny, maxx, minx)], i.e. north, south, east, west. *)
Definition bounds (ds : Dataset) : Q * Q * Q * Q :=
  let gt := GetGeoTransform ds in
  let xs := RasterXSize ds in
  let ys := RasterYSize ds in
  let minx := gt0 gt in
  let maxy := gt3 gt in
  let maxx := (minx + gt1 gt * inject_Z xs)%Q in
  let miny := (maxy + gt5 gt * inject_Z ys)%Q in
  (maxy, miny, maxx, minx).

Definition LatLonBox (b : Q * Q * Q * Q) : Element :=
  let '(maxy, miny, maxx, minx) := b in
  Elem "LatLonBox" [] None
    [leaf "north" (float_str host maxy);
     leaf "south" (float_str host miny);
     leaf "east" (float_str host maxx);
     leaf "west" (float_str host minx)].

Definition GroundOverlay (label img_name : string) (b : Q * Q * Q * Q) : Element :=
  Elem "GroundOverlay" [] None
    [leaf "visibility" "1";
     leaf "name" label;
     Elem "Icon" [] None [leaf "href" ("rasters/" +:+ img_name)];
     LatLonBox b].

(** [<rasters_dir>/<base>.png] for a raster source path. *)
Definition png_path (rasters_dir path : string) : string :=
  Py.join rasters_dir (Py.splitext_root (Py.basename path) +:+ ".png").

(** [rgb.save(img_path, 'PNG')]: the result is not looked at. *)
Definition save_png (path : string) (w h : Z) (img_path : string) : M unit :=
  modify (fun st =>
    if QImage_save host w h img_path
    then with_files (<[img_path := FPng path w h]>) st
    else st).

(** [add_raster_layer(doc, path, props, rasters_dir)]: the new state of
    [doc] and the path of the PNG. *)
Definition add_raster_layer (doc : Element) (path : string) (props : Props)
    (rasters_dir : string) : M (Element * string) :=
  let base := Py.splitext_root (Py.basename path) in
  let img_name := base +:+ ".png" in
  let img_path := Py.join rasters_dir img_name in
  let rlayer := QgsRasterLayer host path in
  if negb (isValid rlayer) then raise ("Cannot load raster " +:+ path)
  else
    _ ← save_png path (width rlayer) (height rlayer) img_path;
    ds ← lift (gdal_Open host path);
    match ds with
    | None => raise ("Cannot open raster " +:+ path)
    | Some ds =>
        ds ← lift (geographic_view ds);
        let label :=
          Py.or_else (Py.get_truthy (bindings props) "folder_name")
            (Py.or_else (Py.get_truthy (bindings props) "name") base) in
        let go := GroundOverlay label img_name (bounds ds) in
        mret (append doc go, img_path)
    end.

(** The property dictionary read from the combo boxes of a row. *)
Definition read_props (row : Row) : Props :=
  {| bindings :=
       fold_left
         (fun props '(j, prop) =>
            let text := Py.strip (currentText row j) in
            if Py.truthy text && negb (String.eqb text "<None>")
            then <[Py.lower prop := text]> props
            else props)
         (combine (seq 3 (length KML_PROPS)) KML_PROPS) ∅;
     fields := None |}.

(** [total_rasters]: the checked raster rows. *)
Definition count_rasters (rows : list Row) : Z :=
  Z.of_nat (length (filter (fun r => is_raster r && checked r = true) rows)).

Definition progress_setValue (v : Z) : M unit := modify (with_progress (setValue v)).
Definition progress_setVisible (b : bool) : M unit := modify (with_progress (setVisible b)).

(** [int(raster_count / total_rasters * 100)]. *)
Definition percent (raster_count total_rasters : Z) : Z :=
  py_int (inject_Z raster_count / inject_Z total_rasters * 100)%Q.

(** Step 3, the loop over the table; [doc], [collected] and
    [raster_count] are the loop-carried variables. *)
Fixpoint export_layers (progress : bool) (total_rasters : Z)
    (rasters_dir : string) (rows : list Row) (doc : Element)
    (collected : list string) (raster_count : Z)
    : M (Element * list string) :=
  match rows with
  | [] => mret (doc, collected)
  | row :: rest =>
      if negb (checked row)
      then export_layers progress total_rasters rasters_dir rest
                         doc collected raster_count
      else
        let path := source row in
        let props := read_props row in
        if is_raster row then
          '(doc, png_path) ← add_raster_layer doc path props rasters_dir;
          let collected := (collected ++ [png_path])%list in
          let raster_count := raster_count + 1 in
          _ ← when (progress && negb (total_rasters =? 0))
                (progress_setValue (percent raster_count total_rasters));
          export_layers progress total_rasters rasters_dir rest
                        doc collected raster_count
        else
          doc ← lift (add_vector_layer doc path props);
          export_layers progress total_rasters rasters_dir rest
                        doc collected raster_count
  end.

(** [ET.ElementTree(kml).write(kml_file, ...)]. *)
Definition write_kml (kml_file : string) (kml : Element) : M unit :=
  modify (with_files (<[kml_file := FKml kml]>)).

(** [zf.write(src, arcname)] for each pair, inside [with ZipFile(out, 'w')]:
    the archive at [out] holds the members written so far, also when a
    later [write] raises (leaving the [with] block closes the archive). *)
Fixpoint zf_write_all (out : string) (entries : list (string * File))
    (todo : list (string * string)) : M unit :=
  match todo with
  | [] => mret tt
  | (src, arcname) :: rest => fun st =>
      match files st !! src with
      | None =>
          (Raise ("[Errno 2] No such file or directory: '" +:+ src +:+ "'"), st)
      | Some f =>
          let entries := (entries ++ [(arcname, f)])%list in
          zf_write_all out entries rest (with_files (<[out := FZip entries]>) st)
      end
  end.

Definition write_kmz (out kml_file : string) (collected : list string) : M unit :=
  _ ← modify (with_files (<[out := FZip []]>));
  zf_write_all out []
    ((kml_file, "doc.kml")
       :: List.map (fun f => (f, "rasters/" +:+ Py.basename f)) collected).

(** [os.replace(src, dst)]. *)
Definition os_replace (src dst : string) : M unit := fun st =>
  match files st !! src with
  | None =>
      (Raise ("[Errno 2] No such file or directory: '" +:+ src +:+ "' -> '"
              +:+ dst +:+ "'"), st)
  | Some f => (Return tt, with_files (fun fs => <[dst := f]> (delete src fs)) st)
  end.

(** Step 5: KML or KMZ. *)
Definition package (out kml_file : string) (collected : list string) : M unit :=
  match collected with
  | _ :: _ => write_kmz out kml_file collected
  | [] => os_replace kml_file out
  end.

(** Evaluating [Qgis.Info]: the module imports five names from
    [qgis.core] and [Qgis] is not among them, so the lookup raises
    [NameError]. *)
Definition Qgis_Info : M Z := raise "name 'Qgis' is not defined".

(** Steps 1 to 3: the document root, the progress bar, the loop. The
    result is the final [Document] and the PNG paths collected. *)
Definition assemble (self : Plugin) : M (Element * list string) :=
  let doc := make_kml_root.2 in
  let tmp := mkdtemp host in
  let rasters_dir := Py.join tmp "rasters" in
  let progress := progressBar self in
  _ ← when progress (_ ← progress_setValue 0; progress_setVisible true);
  let all_layers := tableLayers self in
  let total_rasters := count_rasters all_layers in
  export_layers progress total_rasters rasters_dir all_layers doc [] 0.

(** The body of the [try] block of [run_export]. *)
Definition run_export_try (self : Plugin) : M unit :=
  match output_path self with
  | None | Some EmptyString => raise "Please select an output file"
  | Some out =>
      '(doc, collected) ← assemble self;
      let kml_file := Py.join (mkdtemp host) "doc.kml" in
      _ ← write_kml kml_file (kml_root doc);
      _ ← package out kml_file collected;
      _ ← when (progressBar self) (progress_setVisible false);
      level ← Qgis_Info;
      _ ← modify (with_message ("Exported to " +:+ out));
      modify with_closed
  end.

(** [run_export]: whatever the [try] block raises ends in one
    [QMessageBox.critical] showing [str(e)]. *)
Definition run_export (self : Plugin) (st : State) : State :=
  match run_export_try self st with
  | (Return _, st') => st'
  | (Raise msg, st') => with_critical msg st'
  end.

End Engine.

(** ** Reading a geometry back from KML

    The Geometry Translator is OGR's; its contract is phrased with the two
    functions below, which read the kind of a geometry subtree off its root
    tag and count the tuples of its [<coordinates>] elements. *)









Definition is_png (f : option File) : Prop :=
  match f with Some (FPng _ _ _) => True | _ => False end.


(** ** Vocabulary of the statements *)

(** The layer [add_vector_layer] iterates when it is given [path]. *)
Definition open_layer (host : Host) (path : string) : option Layer :=
  match ogr_Open host path with
  | Return (Some ds) => GetLayer0 ds
  | _ => None
  end.

(** The label of the Folder of a vector layer. *)
Definition folder_label (props : Props) (path : string) : string :=
  Py.or_else (Py.get_truthy (bindings props) "folder_name")
             (Py.splitext_root (Py.basename path)).

(** The two places of the temporary directory a run writes to. *)
Definition rasters_dir (host : Host) : string := Py.join (mkdtemp host) "rasters".
Definition kml_file (host : Host) : string := Py.join (mkdtemp host) "doc.kml".

(** The rows the loop hands to [add_raster_layer]. *)
Definition selected_rasters (rows : list Row) : list Row :=
  filter (λ r, is_raster r && checked r = true) rows.

(** The name given to the GroundOverlay of a raster. *)
Definition raster_label (props : Props) (path : string) : string :=
  Py.or_else (Py.get_truthy (bindings props) "folder_name")
    (Py.or_else (Py.get_truthy (bindings props) "name")
                (Py.splitext_root (Py.basename path))).

(** Whether the PNG of a raster ends up on disk: the layer loaded and
    [QImage.save] succeeded. *)
Definition png_saved (host : Host) (dir path : string) : bool :=
  let rlayer := QgsRasterLayer host path in
  isValid rlayer && QImage_save host (width rlayer) (height rlayer) (png_path dir path).

(** The state [add_raster_layer] leaves behind, whatever it returns. *)
Definition after_raster (host : Host) (dir path : string) (st : State) : State :=
  let rlayer := QgsRasterLayer host path in
  if png_saved host dir path
  then with_files (<[png_path dir path := FPng path (width rlayer) (height rlayer)]>) st
  else st.

(** The state of the progress bar once step 2 has run. *)
Definition begin_progress (self : Plugin) (st : State) : State :=
  if progressBar self
  then with_progress (setVisible true) (with_progress (setValue 0) st)
  else st.

(** A raster whose extent has a non-zero area. *)
Definition nondegenerate (ds : Dataset) : Prop :=
  0 < RasterXSize ds ∧ 0 < RasterYSize ds ∧
  ¬ (gt1 (GetGeoTransform ds) == 0)%Q ∧ ¬ (gt5 (GetGeoTransform ds) == 0)%Q.

(** The state after the progress update that follows raster number [k]. *)
Definition after_percent (progress : bool) (total k : Z) (st : State) : State :=
  if progress && negb (total =? 0)
  then with_progress (setValue (percent k total)) st else st.


(** Whether [run_export] finds an output path. *)
Definition output_set (self : Plugin) : bool :=
  match output_path self with
  | Some (String _ _) => true
  | _ => false
  end.

(** The last character of a string. *)
Fixpoint last_char (s : string) : option ascii :=
  match s with
  | EmptyString => None
  | String c EmptyString => Some c
  | String _ r => last_char r
  end.

(** The archive members written for the collected PNG paths. *)
Definition png_arcname (f : string) : string := "rasters/" +:+ Py.basename f.

(** The children a Placemark gets from each of the three bindings. *)
Definition name_part (host : Host) (props : Props) (avail : list string)
    (feat : Feature) : list Element :=
  match Py.get_truthy (bindings props) "name" with
  | Some nm => [leaf "name" (field_or_literal host avail feat nm)]
  | None => []
  end.

Definition description_part (host : Host) (props : Props) (avail : list string)
    (feat : Feature) : list Element :=
  match Py.get_truthy (bindings props) "description" with
  | Some d => [leaf "description" (field_or_literal host avail feat d)]
  | None => []
  end.

Definition extended_part (host : Host) (props : Props) (avail : list string)
    (feat : Feature) : list Element :=
  match fields props with
  | Some (fld :: flds) => [extended_data host avail feat (fld :: flds)]
  | _ => []
  end.

(** ** A concrete host, for running the engine *)

Module Demo.

Definition str_of_float (x : Q) : string :=
  pretty (Qnum x) +:+ "/" +:+ pretty (Z.pos (Qden x)).

Definition town (id : string) (pop : Value) (g : option Geometry) : Feature :=
  {| GetField := fun k =>
       if String.eqb k "id" then VStr id
       else if String.eqb k "pop" then pop else VNone;
     GetGeometryRef := g |}.

Definition town_A : Feature := town "A" (VInt 10) (Some (Point (Some (1, 2, None)%Q))).
Definition town_B : Feature := town "B" VNone None.

Definition towns : Layer :=
  {| field_names := ["id"; "pop"]; features := [town_A; town_B] |}.

Definition open_vector (path : string) : Exc (option DataSource) :=
  if String.eqb path "/data/towns.shp"
  then Return (Some {| layers := [towns] |})
  else Raise ("unable to open " +:+ path).

Definition point_kml : string := "<Point><coordinates>1,2</coordinates></Point>".

Definition export_kml (g : Geometry) : option string :=
  match g with
  | Point (Some _) => Some point_kml
  | _ => None
  end.

Definition parse (s : string) : Exc Element :=
  if String.eqb s ("<r>" +:+ point_kml +:+ "</r>")
  then Return (Elem "r" [] None [Elem "Point" [] None [leaf "coordinates" "1,2"]])
  else Raise "syntax error: line 1, column 3".

Definition wgs84 : string := "GEOGCS[WGS 84,DATUM[WGS_1984]]".
Definition wgs84_alt : string := "GEOGCRS[WGS 84,ID[EPSG,4326]]".
Definition utm33 : string := "PROJCS[WGS 84 / UTM zone 33N]".

Definition same_srs (a b : SpatialReference) : bool :=
  match a, b with
  | FromWkt w, ImportFromEPSG 4326 => String.eqb w wgs84 || String.eqb w wgs84_alt
  | _, _ => false
  end.

Definition north_up : Dataset :=
  {| GetProjection := wgs84;
     GetGeoTransform :=
       {| gt0 := 10; gt1 := 1 # 2; gt2 := 0; gt3 := 50; gt4 := 0; gt5 := - (1 # 2) |};
     RasterXSize := 2; RasterYSize := 2 |}.

Definition south_up : Dataset :=
  {| GetProjection := wgs84_alt;
     GetGeoTransform :=
       {| gt0 := 0; gt1 := 1; gt2 := 0; gt3 := 0; gt4 := 0; gt5 := 1 |};
     RasterXSize := 2; RasterYSize := 2 |}.

Definition projected : Dataset :=
  {| GetProjection := utm33;
     GetGeoTransform :=
       {| gt0 := 500000; gt1 := 30; gt2 := 0; gt3 := 4649776; gt4 := 0; gt5 := - 30 |};
     RasterXSize := 100; RasterYSize := 50 |}.

Definition warped : Dataset :=
  {| GetProjection := wgs84;
     GetGeoTransform :=
       {| gt0 := 15; gt1 := 1 # 100; gt2 := 0; gt3 := 42; gt4 := 0; gt5 := - (1 # 100) |};
     RasterXSize := 120; RasterYSize := 40 |}.

Definition open_raster (path : string) : Exc (option Dataset) :=
  if String.eqb path "/data/dem.tif" then Return (Some north_up)
  else if String.eqb path "/data/up.tif" then Return (Some south_up)
  else if String.eqb path "/data/utm.tif" then Return (Some projected)
  else if String.eqb path "/data/huge.tif" then Return (Some north_up)
  else Raise (path +:+ ": No such file or directory").

Definition warp (ds : Dataset) : Exc Dataset :=
  if String.eqb (GetProjection ds) utm33 then Return warped
  else Raise "Cannot find coordinate operations".

Definition raster_layer (path : string) : RasterLayer :=
  if String.eqb path "/data/dem.tif" then {| isValid := true; width := 2; height := 2 |}
  else if String.eqb path "/data/up.tif" then {| isValid := true; width := 2; height := 2 |}
  else if String.eqb path "/data/utm.tif" then {| isValid := true; width := 100; height := 50 |}
  else if String.eqb path "/data/huge.tif"
  then {| isValid := true; width := 400000; height := 400000 |}
  else {| isValid := false; width := 0; height := 0 |}.

(** A [QImage] has at most 32767 pixels a side; beyond that the image is
    null and saving it fails. *)
Definition save_ok (w h : Z) (img_path : string) : bool :=
  (0 <? w) && (w <=? 32767) && (0 <? h) && (h <=? 32767).

Definition host : Host :=
  {| float_str := str_of_float;
     ogr_Open := open_vector;
     wkb_copy := fun g => Return g;
     ExportToKML := export_kml;
     fromstring := parse;
     QgsRasterLayer := raster_layer;
     QImage_save := save_ok;
     gdal_Open := open_raster;
     IsSame := same_srs;
     gdal_Warp := warp;
     mkdtemp := "/tmp/tmpk3x9" |}.

Definition props_of (kvs : list (string * string)) (flds : option (list string)) : Props :=
  {| bindings := list_to_map kvs; fields := flds |}.

Definition st0 : State :=
  {| files := ∅; progress_calls := []; message_bar := [];
     critical := []; dlg_closed := false |}.

(** A table row whose property combo boxes all show [<None>], except the
    [Name] column (column 3). *)
Definition row (raster : bool) (src name : string) : Row :=
  {| checked := true; is_raster := raster; source := src;
     currentText := fun j => if Nat.eqb j 3 then name else "<None>" |}.

End Demo.

(** ** Sample runs on the concrete host *)

Module Sample.

(** A vector export with a field binding, a literal binding and a
    requested field that the schema lacks. *)
Definition towns_props : Props :=
  Demo.props_of [("name", "id"); ("description", "Town")] (Some ["pop"; "area"]).

Definition towns_path : string := "/data/towns.shp".

Definition towns_doc : Element :=
  match add_vector_layer Demo.host empty_document towns_path towns_props with
  | Return doc => doc
  | Raise _ => empty_document
  end.

Definition towns_folder : Element :=
  default empty_document (last (children towns_doc)).

(** The same layer with only fields the schema lacks. *)
Definition absent_props : Props := Demo.props_of [] (Some ["area"; "mayor"]).

Definition absent_doc : Element :=
  match add_vector_layer Demo.host empty_document towns_path absent_props with
  | Return doc => doc
  | Raise _ => empty_document
  end.

Definition absent_folder : Element :=
  default empty_document (last (children absent_doc)).

(** A raster export. *)
Definition raster_run (path : string) : Exc (Element * string) * State :=
  add_raster_layer Demo.host empty_document path (Demo.props_of [] None)
    (rasters_dir Demo.host) Demo.st0.

Definition raster_doc (path : string) : Element :=
  match (raster_run path).1 with
  | Return r => r.1
  | Raise _ => empty_document
  end.

Definition out : string := "/out/export.kmz".

Definition plugin (rows : list Row) : Plugin :=
  {| output_path := Some out; progressBar := true; tableLayers := rows |}.

Definition towns_row : Row := Demo.row false towns_path "id".
Definition dem_row : Row := Demo.row true "/data/dem.tif" "".
Definition utm_row : Row := Demo.row true "/data/utm.tif" "Landsat".
Definition huge_row : Row := Demo.row true "/data/huge.tif" "".
Definition missing_row : Row := Demo.row true "/data/missing.tif" "".

(** One vector layer and two rasters. *)
Definition mixed : Plugin := plugin [towns_row; dem_row; utm_row].

Definition mixed_doc : Element :=
  match (assemble Demo.host mixed Demo.st0).1 with
  | Return r => r.1
  | Raise _ => empty_document
  end.

Definition mixed_collected : list string :=
  match (assemble Demo.host mixed Demo.st0).1 with
  | Return r => r.2
  | Raise _ => []
  end.

(** A raster that cannot be loaded, between two layers that can. *)
Definition failing : Plugin := plugin [towns_row; missing_row; dem_row].

Definition failing_state : State :=
  (export_layers Demo.host true 2 (rasters_dir Demo.host) [towns_row; missing_row]
     empty_document [] 0 (begin_progress failing Demo.st0)).2.

End Sample.


(** ** More vocabulary: characters of a path *)

(** [c in s] for a character. *)
Fixpoint contains (c : ascii) (s : string) : bool :=
  match s with
  | EmptyString => false
  | String a r => Ascii.eqb a c || contains c r
  end.

(** ** More vocabulary: the layer table *)

(** What a property combo box contributes to [props]: its stripped text,
    unless that is empty or [<None>]. *)
Definition cell_binding (row : Row) (j : nat) : option string :=
  let text := Py.strip (currentText row j) in
  if Py.truthy text && negb (String.eqb text "<None>") then Some text else None.

(** The loop body of [read_props], as a function on the dictionary. *)
Definition read_cell (row : Row) (props : gmap string string)
    (jp : nat * string) : gmap string string :=
  let text := Py.strip (currentText row jp.1) in
  if Py.truthy text && negb (String.eqb text "<None>")
  then <[Py.lower jp.2 := text]> props
  else props.

(** The tag of the element a checked row adds to the document. *)
Definition row_tag (row : Row) : string :=
  if is_raster row then "GroundOverlay" else "Folder".

(** The plugin with another table. *)
Definition with_table (rows : list Row) (self : Plugin) : Plugin :=
  {| output_path := output_path self; progressBar := progressBar self;
     tableLayers := rows |}.

(** The message bar, the critical boxes and the dialog: what a run shows
    apart from the progress bar. *)
Definition boxes (st : State) : list string * list string * bool :=
  (message_bar st, critical st, dlg_closed st).

(** ** The dialog: the layer table, the format radios, the output path *)

(** [s.endswith(suffix)]. *)
Definition endswith (s suffix : string) : bool :=
  let n := String.length s in
  let m := String.length suffix in
  if (m <=? n)%nat
  then String.eqb (String.substring (n - m) m s) suffix
  else false.

(** Which QGIS class a map layer is an instance of. *)
Inductive LayerClass : Type := IsRaster | IsVector | IsOther.

(** A layer of the project or of [added_file_layers]. *)
Record MapLayer : Type := {
  lyr_name : string;             (* lyr.name() *)
  lyr_class : LayerClass;
  lyr_source : string;           (* lyr.source() *)
  lyr_fields : list string;      (* [f.name() for f in lyr.fields()] *)
  lyr_isValid : bool
}.

(** A property combo box: its entries and the text it shows. *)
Record ComboBox : Type := {
  combo_items : list string;
  combo_editable : bool;
  combo_text : string            (* currentText() *)
}.

(** One row of widgets: the check box, the two items, the combo boxes
    of columns 3, 4, ... *)
Record TableRow : Type := {
  cb_checked : bool;
  item_name : string;
  item_type : string;
  combos : list ComboBox
}.

Record Table : Type := {
  columnCount : nat;
  headers : list string;
  table_rows : list TableRow
}.

(** [isinstance(lyr, QgsRasterLayer)]. *)
Definition is_raster_layer (lyr : MapLayer) : bool :=
  match lyr_class lyr with IsRaster => true | _ => false end.

(** A fresh combo box after [addItem('<None>')], [addItems(...)] for a
    vector layer and [setEditable(True)]: it shows its first entry. *)
Definition new_combo (lyr : MapLayer) : ComboBox :=
  {| combo_items :=
       "<None>" :: match lyr_class lyr with IsVector => lyr_fields lyr | _ => [] end;
     combo_editable := true;
     combo_text := "<None>" |}.

Definition new_row (lyr : MapLayer) : TableRow :=
  {| cb_checked := true;
     item_name := lyr_name lyr;
     item_type := if is_raster_layer lyr then "Raster" else "Vector";
     combos := List.map (λ _, new_combo lyr) (seq 0 (length KML_PROPS)) |}.

(** [populate_table]: the table is rebuilt from scratch for [all_layers]. *)
Definition populate_table (all_layers : list MapLayer) : Table :=
  {| columnCount := 3 + length KML_PROPS;
     headers := ["Export?"; "Layer Name"; "Type"] ++ KML_PROPS;
     table_rows := List.map new_row all_layers |}.

(** What [run_export] and [update_format_options] read of row [i]: the
    layer and the widgets of its row. *)
Definition row_of (lyr : MapLayer) (r : TableRow) : Row :=
  {| checked := cb_checked r;
     is_raster := is_raster_layer lyr;
     source := lyr_source lyr;
     currentText := λ j,
       if (j <? 3)%nat then ""
       else match combos r !! (j - 3)%nat with
            | Some c => combo_text c
            | None => ""
            end |}.

Definition rows_of (all_layers : list MapLayer) (tbl : Table) : list Row :=
  zip_with row_of all_layers (table_rows tbl).

(** The two radio buttons, as far as the code touches them. *)
Record Radios : Type := {
  radioKML_enabled : bool;
  radioKMZ_checked : bool
}.

(** The loop of [update_format_options], with its [break]. *)
Fixpoint any_raster (rows : list Row) : bool :=
  match rows with
  | [] => false
  | row :: rest => if is_raster row && checked row then true else any_raster rest
  end.

Definition update_format_options (rows : list Row) (radios : Radios) : Radios :=
  let any := any_raster rows in
  {| radioKML_enabled := negb any;
     radioKMZ_checked := if any then true else radioKMZ_checked radios |}.

(** [select_output]: the path stored for the path chosen in the file
    dialog; [None] when the dialog was cancelled. *)
Definition chosen_output (radios : Radios) (path : string) : option string :=
  let fmt := if radioKMZ_checked radios then "kmz" else "kml" in
  if negb (Py.truthy path) then None
  else if negb (endswith (Py.lower path) ("." +:+ fmt))
       then Some (path +:+ "." +:+ fmt)
       else Some path.

Definition with_output (out : string) (self : Plugin) : Plugin :=
  {| output_path := Some out; progressBar := progressBar self;
     tableLayers := tableLayers self |}.

Definition select_output (radios : Radios) (path : string) (self : Plugin) : Plugin :=
  match chosen_output radios path with
  | Some out => with_output out self
  | None => self
  end.

(** The widgets of the dialog and the files added by hand. *)
Record Dialog : Type := {
  added_file_layers : list MapLayer;
  tableWidget : Table;
  radios : Radios;
  error_boxes : list string
}.

(** [populate_table] followed by [update_format_options], as in
    [show_dialog] and at the end of [add_layer]. *)
Definition refresh (project_layers : list MapLayer) (dlg : Dialog) : Dialog :=
  let all_layers := (project_layers ++ added_file_layers dlg)%list in
  let tbl := populate_table all_layers in
  {| added_file_layers := added_file_layers dlg;
     tableWidget := tbl;
     radios := update_format_options (rows_of all_layers tbl) (radios dlg);
     error_boxes := error_boxes dlg |}.

Definition show_dialog (project_layers : list MapLayer) (dlg : Dialog) : Dialog :=
  refresh project_layers dlg.

(** [add_layer] for the path chosen in the file dialog. [QgsVectorLayer]
    gives the validity and the fields of the vector layer it opens,
    [source_of] what [lyr.source()] will answer for the new layer. *)
Definition add_layer (host : Host) (QgsVectorLayer : string → bool * list string)
    (source_of : string → string)
    (project_layers : list MapLayer) (path : string) (dlg : Dialog) : Dialog :=
  if negb (Py.truthy path) then dlg
  else
    let lyr :=
      if endswith (Py.lower path) ".tif" || endswith (Py.lower path) ".tiff"
      then {| lyr_name := Py.basename path; lyr_class := IsRaster;
              lyr_source := source_of path; lyr_fields := [];
              lyr_isValid := isValid (QgsRasterLayer host path) |}
      else {| lyr_name := Py.basename path; lyr_class := IsVector;
              lyr_source := source_of path; lyr_fields := (QgsVectorLayer path).2;
              lyr_isValid := (QgsVectorLayer path).1 |} in
    if negb (lyr_isValid lyr)
    then {| added_file_layers := added_file_layers dlg;
            tableWidget := tableWidget dlg;
            radios := radios dlg;
            error_boxes := (error_boxes dlg ++ ["Cannot load layer"])%list |}
    else
      refresh project_layers
        {| added_file_layers := (added_file_layers dlg ++ [lyr])%list;
           tableWidget := tableWidget dlg;
           radios := radios dlg;
           error_boxes := error_boxes dlg |}.

(** The raster layers among the layers. *)
Definition raster_layers (layers : list MapLayer) : list MapLayer :=
  filter (λ lyr, is_raster_layer lyr = true) layers.

(** ** A second host: more files next to those of [Demo] *)

Module Demo2.

Definition road : Feature :=
  {| GetField := λ _, VNone;
     GetGeometryRef := Some (LineString [(0, 0, None); (1, 1, None)]%Q) |}.

(** One good feature, one whose geometry the translator of [Demo] does
    not export, one more good feature. *)
Definition mixed_layer : Layer :=
  {| field_names := ["id"]; features := [Demo.town_A; road; Demo.town_B] |}.

Definition open_vector (path : string) : Exc (option DataSource) :=
  if String.eqb path "/data/mixed.shp"
  then Return (Some {| layers := [mixed_layer] |})
  else ogr_Open Demo.host path.

Definition local_cs : Dataset :=
  {| GetProjection := "LOCAL_CS[unknown]";
     GetGeoTransform :=
       {| gt0 := 0; gt1 := 1; gt2 := 0; gt3 := 0; gt4 := 0; gt5 := - 1 |};
     RasterXSize := 4; RasterYSize := 4 |}.

Definition open_raster (path : string) : Exc (option Dataset) :=
  if String.eqb path "/survey/dem.tif" then Return (Some Demo.projected)
  else if String.eqb path "/data/local.tif" then Return (Some local_cs)
  else gdal_Open Demo.host path.

Definition raster_layer (path : string) : RasterLayer :=
  if String.eqb path "/survey/dem.tif"
  then {| isValid := true; width := 100; height := 50 |}
  else if String.eqb path "/data/local.tif"
  then {| isValid := true; width := 4; height := 4 |}
  else QgsRasterLayer Demo.host path.

Definition host : Host :=
  {| float_str := float_str Demo.host;
     ogr_Open := open_vector;
     wkb_copy := wkb_copy Demo.host;
     ExportToKML := ExportToKML Demo.host;
     fromstring := fromstring Demo.host;
     QgsRasterLayer := raster_layer;
     QImage_save := QImage_save Demo.host;
     gdal_Open := open_raster;
     IsSame := IsSame Demo.host;
     gdal_Warp := gdal_Warp Demo.host;
     mkdtemp := mkdtemp Demo.host |}.

Definition no_props : Props := Demo.props_of [] None.

(** The two rasters called [dem.tif], exported one after the other. *)
Definition first_dem : Exc (Element * string) * State :=
  add_raster_layer host empty_document "/data/dem.tif" no_props
    (rasters_dir host) Demo.st0.

Definition first_dem_doc : Element :=
  match first_dem.1 with Return r => r.1 | Raise _ => empty_document end.

Definition second_dem : Exc (Element * string) * State :=
  add_raster_layer host first_dem_doc "/survey/dem.tif" no_props
    (rasters_dir host) first_dem.2.

Definition second_dem_doc : Element :=
  match second_dem.1 with Return r => r.1 | Raise _ => empty_document end.

(** A raster that renders but cannot be reprojected. *)
Definition local_run : Exc (Element * string) * State :=
  add_raster_layer host empty_document "/data/local.tif" no_props
    (rasters_dir host) Demo.st0.

(** A table row with a name, then a row read from the table. *)
Definition named_row : Row := Demo.row true "/data/utm.tif" "  Landsat 8 ".

Definition named_run : Exc (Element * string) * State :=
  add_raster_layer host empty_document (source named_row) (read_props named_row)
    (rasters_dir host) Demo.st0.

Definition named_doc : Element :=
  match named_run.1 with Return r => r.1 | Raise _ => empty_document end.

Definition towns_row_doc : Element :=
  match add_vector_layer host empty_document (source Sample.towns_row)
          (read_props Sample.towns_row) with
  | Return doc => doc
  | Raise _ => empty_document
  end.

Definition unchecked (row : Row) : Row :=
  {| checked := false; is_raster := is_raster row; source := source row;
     currentText := currentText row |}.

(** A table with an unchecked raster in the middle. *)
Definition partly_checked : Plugin :=
  Sample.plugin [Sample.towns_row; unchecked Sample.huge_row; Sample.dem_row;
                 Sample.utm_row].

Definition partly_doc : Element :=
  match (assemble Demo.host partly_checked Demo.st0).1 with
  | Return r => r.1
  | Raise _ => empty_document
  end.

Definition partly_collected : list string :=
  match (assemble Demo.host partly_checked Demo.st0).1 with
  | Return r => r.2
  | Raise _ => []
  end.

Definition kml_radios : Radios :=
  {| radioKML_enabled := true; radioKMZ_checked := false |}.

Definition project : list MapLayer :=
  [{| lyr_name := "towns"; lyr_class := IsVector; lyr_source := "/data/towns.shp";
      lyr_fields := ["id"; "pop"]; lyr_isValid := true |}].

Definition dialog0 : Dialog :=
  {| added_file_layers := []; tableWidget := populate_table project;
     radios := kml_radios; error_boxes := [] |}.

Definition load_vector (path : string) : bool * list string := (false, []).

End Demo2.

(** * Properties *)

(** ** Elements *)

Lemma tag_append p c : tag (append p c) = tag p.
Proof. by destruct p. Qed.

Lemma children_append p c : children (append p c) = (children p ++ [c])%list.
Proof. by destruct p. Qed.

Lemma tag_extend cs : ∀ p, tag (extend p cs) = tag p.
Proof.
  induction cs as [|c cs IH]; intros p; [done|].
  unfold extend in *. simpl. by rewrite IH, tag_append.
Qed.

Lemma children_extend cs : ∀ p, children (extend p cs) = (children p ++ cs)%list.
Proof.
  induction cs as [|c cs IH]; intros p.
  - simpl. by rewrite app_nil_r.
  - unfold extend in *. simpl. rewrite IH, children_append.
    by rewrite <- app_assoc.
Qed.

Lemma extend_Elem pms : ∀ t a x cs,
  extend (Elem t a x cs) pms = Elem t a x (cs ++ pms)%list.
Proof.
  induction pms as [|pm pms IH]; intros t a x cs.
  - simpl. by rewrite app_nil_r.
  - unfold extend in *. simpl. rewrite IH. by rewrite <- app_assoc.
Qed.

Lemma find_app_l t p c cs :
  children p = (c :: cs)%list → tag c = t → find t p = Some c.
Proof.
  unfold find, findall. intros -> Ht. by rewrite filter_cons_True.
Qed.

Lemma filter_none {A} (P : A → Prop) `{∀ x, Decision (P x)} (l : list A) :
  (∀ x, x ∈ l → ¬ P x) → filter P l = [].
Proof.
  induction l as [|x l IH]; intros Hnone; [done|].
  rewrite filter_cons_False by (apply Hnone; left).
  apply IH. intros y Hy. apply Hnone. by right.
Qed.



(** ** The vector exporter *)

Section Vector.

Variable host : Host.
Variable props : Props.
Variable avail : list string.

Lemma placemark_head_tag feat : tag (placemark_head host props avail feat) = "Placemark".
Proof.
  unfold placemark_head.
  repeat (case_match; rewrite ?tag_append); done.
Qed.

Lemma placemark_tag feat pm :
  placemark host props avail feat = Return pm → tag pm = "Placemark".
Proof.
  unfold placemark. destruct (GetGeometryRef feat) as [g|].
  - destruct (geometry_kml host g) as [cs|e]; simpl; [|done].
    intros [= <-]. by rewrite tag_extend, placemark_head_tag.
  - intros [= <-]. apply placemark_head_tag.
Qed.

(** The loop emits one Placemark per feature, in order, after whatever
    the folder already held. *)
Lemma add_features_inv feats : ∀ folder folder',
  add_features host props avail folder feats = Return folder' →
  ∃ pms, Forall2 (λ feat pm, placemark host props avail feat = Return pm) feats pms
         ∧ folder' = extend folder pms.
Proof.
  induction feats as [|feat rest IH]; intros folder folder' H; simpl in H.
  - injection H as <-. exists []. split; [constructor | done].
  - destruct (placemark host props avail feat) as [pm|e] eqn:Hpm; simpl in H; [|done].
    destruct (IH _ _ H) as (pms & Hall & ->).
    exists (pm :: pms). split; [by constructor | done].
Qed.

Lemma add_features_total feats : ∀ folder pms,
  Forall2 (λ feat pm, placemark host props avail feat = Return pm) feats pms →
  add_features host props avail folder feats = Return (extend folder pms).
Proof.
  induction feats as [|feat rest IH]; intros folder pms H; inversion H; subst; simpl.
  - done.
  - rewrite H2. simpl. by rewrite (IH _ _ H4).
Qed.

End Vector.


(** What a successful [add_vector_layer] did: the layer was opened and one
    Folder, holding its label and the Placemarks of the features in
    iteration order, became the last child of the document. *)
Lemma add_vector_layer_inv host doc path props doc' :
  add_vector_layer host doc path props = Return doc' →
  ∃ ds layer pms,
    ogr_Open host path = Return (Some ds) ∧ GetLayer0 ds = Some layer ∧
    Forall2 (λ feat pm, placemark host props (field_names layer) feat = Return pm)
            (features layer) pms ∧
    doc' = append doc (Elem "Folder" [] None (leaf "name" (folder_label props path) :: pms)).
Proof.
  unfold add_vector_layer. intros H.
  destruct (ogr_Open host path) as [[ds|]|e]; simpl in H; try done.
  destruct (GetLayer0 ds) as [layer|] eqn:Hlayer; [|done].
  match type of H with context [add_features ?h ?p ?a ?f ?l] =>
    destruct (add_features h p a f l) as [folder|e] eqn:Hf end; simpl in H; [|done].
  injection H as <-.
  apply add_features_inv in Hf as (pms & Hall & ->).
  exists ds, layer, pms. repeat split; try done.
  by rewrite extend_Elem.
Qed.

(** Conversely the export returns as soon as the layer opens and every
    geometry translates. *)
Lemma add_vector_layer_total host doc path props layer :
  open_layer host path = Some layer →
  Forall (λ feat, ∀ geom, GetGeometryRef feat = Some geom →
                    ∃ els, geometry_kml host geom = Return els) (features layer) →
  ∃ doc', add_vector_layer host doc path props = Return doc'.
Proof.
  unfold open_layer, add_vector_layer. intros Hopen Hgeo.
  destruct (ogr_Open host path) as [[ds|]|e]; try done. simpl.
  rewrite Hopen.
  assert (∃ pms, Forall2 (λ feat pm, placemark host props (field_names layer) feat
                                     = Return pm) (features layer) pms) as [pms Hpms].
  { induction Hgeo as [|feat feats Hfeat _ [pms IH]]; [by exists []|].
    unfold placemark at 1.
    destruct (GetGeometryRef feat) as [geom|] eqn:Eg.
    - destruct (Hfeat geom eq_refl) as [els Hels].
      exists (extend (placemark_head host props (field_names layer) feat) els :: pms).
      constructor; [|done]. unfold placemark. by rewrite Eg, Hels.
    - exists (placemark_head host props (field_names layer) feat :: pms).
      constructor; [|done]. unfold placemark. by rewrite Eg. }
  rewrite (add_features_total _ _ _ _ _ _ Hpms). by eexists.
Qed.

(** ** What a Placemark holds *)

Section Placemark.

Variable host : Host.
Variable props : Props.
Variable avail : list string.
Variable feat : Feature.

Lemma placemark_head_children :
  children (placemark_head host props avail feat)
  = (name_part host props avail feat
     ++ description_part host props avail feat
     ++ extended_part host props avail feat)%list.
Proof.
  unfold placemark_head, name_part, description_part, extended_part.
  destruct (Py.get_truthy (bindings props) "name");
    destruct (Py.get_truthy (bindings props) "description");
    destruct (fields props) as [[|fld flds]|];
    by rewrite ?children_append.
Qed.

(** The loop over the requested fields keeps, in order, the names found
    in the schema. *)
Lemma extended_data_fold flds : ∀ t a x cs,
  fold_left
    (λ ext fld, if decide (fld ∈ avail) then append ext (data_entry host feat fld) else ext)
    flds (Elem t a x cs)
  = Elem t a x (cs ++ List.map (data_entry host feat) (filter (λ f, f ∈ avail) flds))%list.
Proof.
  induction flds as [|fld flds IH]; intros t a x cs; simpl.
  - by rewrite app_nil_r.
  - destruct (decide (fld ∈ avail)) as [Hin|Hout].
    + rewrite filter_cons_True by done. simpl. rewrite IH.
      by rewrite <- app_assoc.
    + rewrite filter_cons_False by done. apply IH.
Qed.

Lemma extended_data_eq flds :
  extended_data host avail feat flds
  = Elem "ExtendedData" [] None
      (List.map (data_entry host feat) (filter (λ f, f ∈ avail) flds)).
Proof. unfold extended_data. by rewrite extended_data_fold. Qed.


(** A Placemark is its head followed by the translated geometry. *)
Lemma placemark_inv pm :
  placemark host props avail feat = Return pm →
  ∃ els, children pm = (children (placemark_head host props avail feat) ++ els)%list
         ∧ match GetGeometryRef feat with
           | Some g => geometry_kml host g = Return els
           | None => els = [] ∧ pm = placemark_head host props avail feat
           end.
Proof.
  unfold placemark. destruct (GetGeometryRef feat) as [g|].
  - destruct (geometry_kml host g) as [els|e]; simpl; [|done].
    intros [= <-]. exists els. by rewrite children_extend.
  - intros [= <-]. exists []. by rewrite app_nil_r.
Qed.

Lemma find_name pm nm :
  placemark host props avail feat = Return pm →
  Py.get_truthy (bindings props) "name" = Some nm →
  find "name" pm = Some (leaf "name" (field_or_literal host avail feat nm)).
Proof.
  intros (els & Hc & _)%placemark_inv Hnm.
  rewrite placemark_head_children in Hc. unfold name_part in Hc.
  rewrite Hnm in Hc. simpl in Hc. by eapply find_app_l.
Qed.

Lemma find_description pm d :
  placemark host props avail feat = Return pm →
  Py.get_truthy (bindings props) "description" = Some d →
  find "description" pm
  = Some (leaf "description" (field_or_literal host avail feat d)).
Proof.
  intros (els & Hc & _)%placemark_inv Hd.
  rewrite placemark_head_children in Hc.
  unfold name_part, description_part in Hc. rewrite Hd in Hc.
  unfold find, findall. rewrite Hc.
  by destruct (Py.get_truthy (bindings props) "name").
Qed.

Lemma find_extended pm fld flds :
  placemark host props avail feat = Return pm →
  fields props = Some (fld :: flds) →
  find "ExtendedData" pm = Some (extended_data host avail feat (fld :: flds)).
Proof.
  intros (els & Hc & _)%placemark_inv Hf.
  rewrite placemark_head_children in Hc.
  unfold name_part, description_part, extended_part in Hc. rewrite Hf in Hc.
  unfold find, findall. rewrite Hc, extended_data_eq.
  by destruct (Py.get_truthy (bindings props) "name"),
    (Py.get_truthy (bindings props) "description").
Qed.

End Placemark.

(** ** The Folder of a vector layer *)

Lemma folder_placemarks host props avail feats pms lbl :
  Forall2 (λ feat pm, placemark host props avail feat = Return pm) feats pms →
  findall "Placemark" (Elem "Folder" [] None (leaf "name" lbl :: pms)) = pms.
Proof.
  intros Hall. unfold findall. simpl.
  rewrite filter_cons_False by done.
  induction Hall as [|feat pm feats pms Hpm _ IH]; [done|].
  rewrite filter_cons_True by (by eapply placemark_tag). by rewrite IH.
Qed.

Lemma open_layer_inv host path layer :
  open_layer host path = Some layer →
  ∃ ds, ogr_Open host path = Return (Some ds) ∧ GetLayer0 ds = Some layer.
Proof.
  unfold open_layer. destruct (ogr_Open host path) as [[ds|]|e]; try done.
  intros H. by exists ds.
Qed.

(** A successful export appends one Folder whose Placemarks are built, in
    order, from the features of the layer. *)
Lemma vector_folder host doc path props doc' layer :
  add_vector_layer host doc path props = Return doc' →
  open_layer host path = Some layer →
  ∃ folder,
    children doc' = (children doc ++ [folder])%list ∧
    folder = Elem "Folder" [] None
               (leaf "name" (folder_label props path) :: findall "Placemark" folder) ∧
    Forall2 (λ feat pm, placemark host props (field_names layer) feat = Return pm)
            (features layer) (findall "Placemark" folder).
Proof.
  intros (ds & layer' & pms & Hds & Hl & Hall & ->)%add_vector_layer_inv
         (ds' & Hds' & Hl')%open_layer_inv.
  assert (layer' = layer) as -> by congruence.
  eexists. rewrite children_append. split; [done|].
  by rewrite (folder_placemarks _ _ _ _ _ _ Hall).
Qed.

Lemma vector_placemark host doc path props doc' layer folder i feat :
  add_vector_layer host doc path props = Return doc' →
  open_layer host path = Some layer →
  last (children doc') = Some folder →
  features layer !! i = Some feat →
  ∃ pm, findall "Placemark" folder !! i = Some pm ∧
        placemark host props (field_names layer) feat = Return pm.
Proof.
  intros Hrun Hopen Hlast Hi.
  destruct (vector_folder _ _ _ _ _ _ Hrun Hopen) as (folder' & Hc & _ & Hall).
  rewrite Hc, last_snoc in Hlast. injection Hlast as ->.
  destruct (Forall2_lookup_l _ _ _ _ _ Hall Hi) as (pm & Hpm & Hbuild).
  by exists pm.
Qed.

(** C4: for a vector layer with N features the Folder that
    [add_vector_layer] appends to the document holds, after its label,
    exactly N Placemark children, the i-th one built from the i-th feature
    of the layer's iteration order: nothing is sorted, dropped or
    repeated. *)
Theorem placemark_count_and_order host doc path props doc' layer :
  add_vector_layer host doc path props = Return doc' →
  open_layer host path = Some layer →
  ∃ folder,
    children doc' = (children doc ++ [folder])%list ∧
    tag folder = "Folder" ∧
    children folder = leaf "name" (folder_label props path) :: findall "Placemark" folder ∧
    length (findall "Placemark" folder) = length (features layer) ∧
    Forall2 (λ feat pm, placemark host props (field_names layer) feat = Return pm)
            (features layer) (findall "Placemark" folder).
Proof.
  intros Hrun Hopen.
  destruct (vector_folder _ _ _ _ _ _ Hrun Hopen) as (folder & Hc & Hf & Hall).
  exists folder. repeat split; try done.
  - by rewrite Hf.
  - by rewrite Hf at 1.
  - symmetry. by eapply Forall2_length.
Qed.

(** C2: in every Placemark, a [name] (or [description]) binding that is
    one of the layer's field names is replaced by the string form of the
    feature's value for that field, and any other binding is emitted
    unchanged as a literal. *)
Theorem binding_resolution host doc path props doc' layer folder i feat key b :
  add_vector_layer host doc path props = Return doc' →
  open_layer host path = Some layer →
  last (children doc') = Some folder →
  features layer !! i = Some feat →
  key ∈ ["name"; "description"] →
  Py.get_truthy (bindings props) key = Some b →
  ∃ pm, findall "Placemark" folder !! i = Some pm ∧
    (b ∈ field_names layer →
       find key pm = Some (leaf key (py_str host (GetField feat b)))) ∧
    (b ∉ field_names layer → find key pm = Some (leaf key b)).
Proof.
  intros Hrun Hopen Hlast Hi Hkey Hb.
  destruct (vector_placemark _ _ _ _ _ _ _ _ _ Hrun Hopen Hlast Hi) as (pm & Hpm & Hbuild).
  exists pm. split; [done|].
  assert (find key pm = Some (leaf key (field_or_literal host (field_names layer) feat b)))
    as ->.
  { apply list_elem_of_In in Hkey. destruct Hkey as [<-|[<-|[]]].
    - by eapply find_name.
    - by eapply find_description. }
  unfold field_or_literal. split; intros H; by destruct (decide _).
Qed.

(** C5, as the code has it: for a non-empty requested list F the
    [ExtendedData] of every Placemark holds one [Data] entry per occurrence
    in F of a name found in the schema, in the order of F, carrying the
    string form of the feature's value; names absent from the schema give
    no entry. An entry is there exactly for the names of F in the schema,
    and exactly once when F lists no name twice. *)
Theorem extended_data_entries host doc path props doc' layer folder i feat F :
  add_vector_layer host doc path props = Return doc' →
  open_layer host path = Some layer →
  last (children doc') = Some folder →
  features layer !! i = Some feat →
  fields props = Some F → F ≠ [] →
  ∃ pm ext, findall "Placemark" folder !! i = Some pm ∧
    find "ExtendedData" pm = Some ext ∧
    children ext
      = List.map (data_entry host feat) (filter (λ f, f ∈ field_names layer) F) ∧
    (∀ fld, data_entry host feat fld ∈ children ext
            ↔ fld ∈ F ∧ fld ∈ field_names layer) ∧
    (NoDup F → NoDup (children ext)).
Proof.
  intros Hrun Hopen Hlast Hi HF Hne.
  destruct (vector_placemark _ _ _ _ _ _ _ _ _ Hrun Hopen Hlast Hi) as (pm & Hpm & Hbuild).
  destruct F as [|fld flds]; [done|].
  exists pm, (extended_data host (field_names layer) feat (fld :: flds)).
  split; [done|]. split; [by eapply find_extended|].
  rewrite extended_data_eq. simpl children.
  assert (Inj (=) (=) (data_entry host feat)) as Hinj.
  { intros f1 f2 H. by injection H. }
  split; [done|]. split.
  - intros f. rewrite list_elem_of_In, in_map_iff. split.
    + intros (f' & Heq & Hin). apply Hinj in Heq as ->.
      apply list_elem_of_In, list_elem_of_filter in Hin. tauto.
    + intros [HinF Hav]. exists f. split; [done|].
      by apply list_elem_of_In, list_elem_of_filter.
  - intros Hnd. apply (NoDup_fmap_2 (data_entry host feat)). by apply NoDup_filter.
Qed.

(** C10: when the bindings carry a non-empty [fields] list, every
    Placemark has an [ExtendedData] child, and that element has no [Data]
    child when none of the requested names is a field of the layer. *)
Theorem extended_data_always_present host doc path props doc' layer folder i feat F :
  add_vector_layer host doc path props = Return doc' →
  open_layer host path = Some layer →
  last (children doc') = Some folder →
  features layer !! i = Some feat →
  fields props = Some F → F ≠ [] →
  ∃ pm ext, findall "Placemark" folder !! i = Some pm ∧
    find "ExtendedData" pm = Some ext ∧ tag ext = "ExtendedData" ∧
    ((∀ fld, fld ∈ F → fld ∉ field_names layer) → children ext = []).
Proof.
  intros Hrun Hopen Hlast Hi HF Hne.
  destruct (vector_placemark _ _ _ _ _ _ _ _ _ Hrun Hopen Hlast Hi) as (pm & Hpm & Hbuild).
  destruct F as [|fld flds]; [done|].
  exists pm, (extended_data host (field_names layer) feat (fld :: flds)).
  split; [done|]. split; [by eapply find_extended|].
  rewrite extended_data_eq. split; [done|].
  intros Hnone. simpl children.
  by rewrite (filter_none _ _ Hnone).
Qed.


(** ** The raster exporter *)

Section Raster.

Variable host : Host.

(** [add_raster_layer] reads the geotransform of the geographic view of
    the dataset and leaves at most one new file, the PNG. *)
Lemma add_raster_layer_inv doc path props dir st doc' p st' :
  add_raster_layer host doc path props dir st = (Return (doc', p), st') →
  ∃ ds view,
    isValid (QgsRasterLayer host path) = true ∧
    gdal_Open host path = Return (Some ds) ∧
    geographic_view host ds = Return view ∧
    doc' = append doc (GroundOverlay host (raster_label props path)
                         (Py.splitext_root (Py.basename path) +:+ ".png") (bounds view)) ∧
    p = png_path dir path ∧
    st' = after_raster host dir path st.
Proof.
  unfold add_raster_layer, after_raster, png_saved.
  destruct (isValid (QgsRasterLayer host path)); simpl; [|done].
  unfold mbind, M_bind, save_png, modify, lift. simpl.
  destruct (gdal_Open host path) as [[ds|]|e] eqn:Hopen; simpl; try done.
  destruct (geographic_view host ds) as [view|e] eqn:Hview; simpl; [|done].
  unfold mret, M_ret. intros [= <- <- <-]. by exists ds, view.
Qed.

(** Whatever the outcome, the state after [add_raster_layer] is
    [after_raster]. *)
Lemma add_raster_layer_state doc path props dir st :
  (add_raster_layer host doc path props dir st).2 = after_raster host dir path st.
Proof.
  unfold add_raster_layer, after_raster, png_saved.
  destruct (isValid (QgsRasterLayer host path)); simpl; [|done].
  unfold mbind, M_bind, save_png, modify, lift. simpl.
  destruct (gdal_Open host path) as [[ds|]|e]; simpl; try done.
  by destruct (geographic_view host ds) as [view|e].
Qed.

Lemma after_raster_files dir path st f :
  f ≠ png_path dir path → files (after_raster host dir path st) !! f = files st !! f.
Proof.
  intros Hf. unfold after_raster. destruct (png_saved host dir path); [|done].
  simpl. by rewrite lookup_insert_ne.
Qed.

Lemma after_raster_png dir path st f :
  is_png (files st !! f) → is_png (files (after_raster host dir path st) !! f).
Proof.
  intros Hf. unfold after_raster. destruct (png_saved host dir path); [|done].
  simpl. destruct (decide (png_path dir path = f)) as [->|Hne].
  - by rewrite lookup_insert_eq.
  - by rewrite lookup_insert_ne.
Qed.

Lemma after_raster_saved dir path st :
  png_saved host dir path = true →
  is_png (files (after_raster host dir path st) !! png_path dir path).
Proof.
  intros Hs. unfold after_raster. rewrite Hs. simpl. by rewrite lookup_insert_eq.
Qed.

Lemma after_raster_other dir path st :
  progress_calls (after_raster host dir path st) = progress_calls st ∧
  critical (after_raster host dir path st) = critical st.
Proof. unfold after_raster. by destruct (png_saved host dir path). Qed.

End Raster.

(** ** The loop over the layer table *)

Section Loop.

Variable host : Host.
Variable progress : bool.
Variable total : Z.
Variable dir : string.

Local Abbreviation loop := (export_layers host progress total dir).
Local Abbreviation step_percent := (after_percent progress total).

(** One turn of the loop. *)
Lemma loop_step row rest doc collected rc st :
  loop (row :: rest) doc collected rc st =
  if negb (checked row) then loop rest doc collected rc st
  else if is_raster row then
    match add_raster_layer host doc (source row) (read_props row) dir st with
    | (Return (doc', p), st1) =>
        loop rest doc' (collected ++ [p])%list (rc + 1) (step_percent (rc + 1) st1)
    | (Raise e, st1) => (Raise e, st1)
    end
  else
    match add_vector_layer host doc (source row) (read_props row) with
    | Return doc' => loop rest doc' collected rc st
    | Raise e => (Raise e, st)
    end.
Proof.
  simpl. destruct (checked row); simpl; [|done].
  destruct (is_raster row); simpl.
  - unfold mbind at 1, M_bind at 1.
    destruct (add_raster_layer _ _ _ _ _ _) as [[[doc' p]|e] st1]; [|done].
    unfold after_percent, when, mbind, M_bind, progress_setValue, modify.
    by destruct (progress && negb (total =? 0)).
  - unfold mbind, M_bind, lift.
    by destruct (add_vector_layer _ _ _ _).
Qed.

Lemma selected_rasters_cons row rest :
  selected_rasters (row :: rest) =
  if is_raster row && checked row then row :: selected_rasters rest
  else selected_rasters rest.
Proof.
  unfold selected_rasters. destruct (is_raster row && checked row) eqn:E.
  - by rewrite filter_cons_True.
  - rewrite filter_cons_False; [done|]. by rewrite E.
Qed.

Lemma after_percent_files k st : files (step_percent k st) = files st.
Proof. unfold after_percent. by destruct (progress && negb (total =? 0)). Qed.

Lemma after_percent_critical k st : critical (step_percent k st) = critical st.
Proof. unfold after_percent. by destruct (progress && negb (total =? 0)). Qed.

(** The loop writes nothing but the PNGs of the rasters it is given. *)
Lemma loop_files_frame rows : ∀ doc collected rc st f,
  (∀ row, row ∈ selected_rasters rows → f ≠ png_path dir (source row)) →
  files (loop rows doc collected rc st).2 !! f = files st !! f.
Proof.
  induction rows as [|row rest IH]; intros doc collected rc st f Hf; [done|].
  rewrite loop_step. rewrite selected_rasters_cons in Hf.
  destruct (checked row); simpl.
  - destruct (is_raster row); simpl in *.
    + pose proof (add_raster_layer_state host doc (source row) (read_props row) dir st) as Hst.
      destruct (add_raster_layer _ _ _ _ _ _) as [[[doc' p]|e] st1]; simpl in Hst; subst st1.
      * rewrite IH by (intros r Hr; apply Hf; by right).
        rewrite after_percent_files. apply after_raster_files, Hf. by left.
      * simpl. apply after_raster_files, Hf. by left.
    + destruct (add_vector_layer _ _ _ _); [by apply IH|done].
  - rewrite andb_false_r in Hf. by apply IH.
Qed.

(** A PNG that is on disk stays one. *)
Lemma loop_png_stable rows : ∀ doc collected rc st f,
  is_png (files st !! f) → is_png (files (loop rows doc collected rc st).2 !! f).
Proof.
  induction rows as [|row rest IH]; intros doc collected rc st f Hf; [done|].
  rewrite loop_step.
  destruct (checked row); simpl; [|by apply IH].
  destruct (is_raster row); simpl.
  - pose proof (add_raster_layer_state host doc (source row) (read_props row) dir st) as Hst.
    destruct (add_raster_layer _ _ _ _ _ _) as [[[doc' p]|e] st1]; simpl in Hst; subst st1.
    + apply IH. rewrite after_percent_files. by apply after_raster_png.
    + simpl. by apply after_raster_png.
  - destruct (add_vector_layer _ _ _ _); [by apply IH|done].
Qed.

Lemma loop_critical rows : ∀ doc collected rc st,
  critical (loop rows doc collected rc st).2 = critical st.
Proof.
  induction rows as [|row rest IH]; intros doc collected rc st; [done|].
  rewrite loop_step.
  destruct (checked row); simpl; [|by apply IH].
  destruct (is_raster row); simpl.
  - pose proof (add_raster_layer_state host doc (source row) (read_props row) dir st) as Hst.
    destruct (add_raster_layer _ _ _ _ _ _) as [[[doc' p]|e] st1]; simpl in Hst; subst st1.
    + rewrite IH, after_percent_critical. apply after_raster_other.
    + simpl. apply after_raster_other.
  - destruct (add_vector_layer _ _ _ _); [by apply IH|done].
Qed.

(** On success one PNG path is collected per selected raster, in table
    order, and every PNG that could be saved is on disk. *)
Lemma loop_collected rows : ∀ doc collected rc st doc' collected' st',
  loop rows doc collected rc st = (Return (doc', collected'), st') →
  collected' = (collected ++ List.map (λ r, png_path dir (source r)) (selected_rasters rows))%list ∧
  ∀ row, row ∈ selected_rasters rows → png_saved host dir (source row) = true →
         is_png (files st' !! png_path dir (source row)).
Proof.
  induction rows as [|row rest IH]; intros doc collected rc st doc' collected' st' H.
  - injection H as <- <- <-. simpl. rewrite app_nil_r. split; [done|].
    intros row Hrow. by apply elem_of_nil in Hrow.
  - rewrite loop_step in H. rewrite selected_rasters_cons.
    destruct (checked row); simpl in H.
    + destruct (is_raster row); simpl in *.
      * destruct (add_raster_layer _ _ _ _ _ _) as [[[doc1 p]|e] st1] eqn:Hr; [|done].
        apply add_raster_layer_inv in Hr as (ds & view & _ & _ & _ & _ & -> & ->).
        pose proof H as H'.
        apply IH in H as [-> Hpng]. split; [by rewrite <- app_assoc|].
        intros r [->|Hr]%elem_of_cons Hsaved; [|by apply Hpng].
        replace st' with (loop rest doc1 (collected ++ [png_path dir (source row)])%list
                            (rc + 1) (step_percent (rc + 1) (after_raster host dir (source row) st))).2
          by (by rewrite H').
        apply loop_png_stable. rewrite after_percent_files.
        by apply after_raster_saved.
      * destruct (add_vector_layer _ _ _ _); [by eapply IH|done].
    + rewrite andb_false_r. by eapply IH.
Qed.

(** Once a prefix of the table has raised, the rest of the table is never
    looked at. *)
Lemma loop_abort rows rest : ∀ doc collected rc st e st',
  loop rows doc collected rc st = (Raise e, st') →
  loop (rows ++ rest) doc collected rc st = (Raise e, st').
Proof.
  induction rows as [|row rows IH]; intros doc collected rc st e st' H; [done|].
  rewrite <- app_comm_cons, loop_step. rewrite loop_step in H.
  destruct (checked row); simpl in *; [|by apply IH].
  destruct (is_raster row).
  - destruct (add_raster_layer _ _ _ _ _ _) as [[[doc1 p]|e1] st1]; [by apply IH|done].
  - destruct (add_vector_layer _ _ _ _); [by apply IH|done].
Qed.






End Loop.

(** ** Percentages *)



(** ** Paths *)

Lemma last_char_app x y : y ≠ "" → last_char (x +:+ y) = last_char y.
Proof.
  intros Hy. induction x as [|c x IH]; [done|].
  rewrite <- IH. simpl. destruct (x +:+ y) eqn:E; [|done].
  destruct x as [|a x]; [simpl in E; contradiction | discriminate E].
Qed.

Lemma last_char_join a b : b ≠ "" → last_char (Py.join a b) = last_char b.
Proof.
  intros Hb. unfold Py.join.
  destruct (Py.startswith_slash b); [done|].
  destruct (negb (Py.truthy a) || Py.endswith_slash a).
  - by apply last_char_app.
  - rewrite last_char_app; [|by destruct b]. by apply last_char_app.
Qed.

Lemma last_char_png dir path : last_char (png_path dir path) = Some "g"%char.
Proof.
  unfold png_path.
  rewrite last_char_join; [by rewrite last_char_app|].
  by destruct (Py.splitext_root (Py.basename path)).
Qed.

(** The serialized document and a PNG never share a path. *)
Lemma png_path_not_kml host dir path : png_path dir path ≠ kml_file host.
Proof.
  intros H. apply (f_equal last_char) in H.
  rewrite last_char_png in H. unfold kml_file in H.
  by rewrite last_char_join in H.
Qed.

(** ** Writing the artifact *)







(** ** A whole run *)

Section Run.

Variable host : Host.
Variable self : Plugin.

Local Abbreviation total := (count_rasters (tableLayers self)).
Local Abbreviation loop :=
  (export_layers host (progressBar self) total (rasters_dir host)).

Lemma assemble_eq st :
  assemble host self st
  = loop (tableLayers self) empty_document [] 0 (begin_progress self st).
Proof.
  unfold assemble, begin_progress, when, mbind, M_bind.
  by destruct (progressBar self).
Qed.

(** The three ways a run with an output path can go. *)
Lemma run_export_cases st out :
  output_path self = Some out → out ≠ "" →
  run_export host self st =
  match assemble host self st with
  | (Raise e, st1) => with_critical e st1
  | (Return (doc, collected), st1) =>
      match package out (kml_file host) collected
              (with_files (<[kml_file host := FKml (kml_root doc)]>) st1) with
      | (Raise e, st2) => with_critical e st2
      | (Return _, st2) =>
          with_critical "name 'Qgis' is not defined"
            (if progressBar self then with_progress (setVisible false) st2 else st2)
      end
  end.
Proof.
  intros Hout Hne. unfold run_export, run_export_try. rewrite Hout.
  destruct out as [|c out]; [done|].
  unfold mbind at 1, M_bind at 1.
  destruct (assemble host self st) as [[[doc collected]|e] st1]; [|done].
  unfold mbind at 1, M_bind at 1, write_kml at 1, modify at 1.
  unfold mbind at 1, M_bind at 1. fold (kml_file host).
  destruct (package _ _ _ _) as [[[]|e] st2]; [|done].
  unfold mbind, M_bind, when, progress_setVisible, modify, Qgis_Info, raise.
  by destruct (progressBar self).
Qed.

Lemma run_export_no_output st :
  output_set self = false →
  run_export host self st = with_critical "Please select an output file" st.
Proof.
  unfold output_set, run_export, run_export_try.
  by destruct (output_path self) as [[|c out]|].
Qed.

End Run.



Lemma count_rasters_selected rows :
  count_rasters rows = Z.of_nat (length (selected_rasters rows)).
Proof. done. Qed.

Lemma final_state_files (b : bool) msg st :
  files (with_critical msg (if b then with_progress (setVisible false) st else st))
  = files st.
Proof. by destruct b. Qed.


(** C8, as the code has it: when a layer fails, the export stops there.
    The state the run ends in is the one reached by the table up to and
    including the failing row, so no later layer is touched; nothing has
    been written at the output path; and the exception text is shown in one
    critical message box. *)
Theorem layer_error_aborts host self st out pre bad post msg st1 :
  output_path self = Some out → out ≠ "" →
  tableLayers self = (pre ++ bad :: post)%list →
  export_layers host (progressBar self) (count_rasters (tableLayers self))
    (rasters_dir host) (pre ++ [bad]) empty_document [] 0 (begin_progress self st)
    = (Raise msg, st1) →
  (∀ row, row ∈ selected_rasters (pre ++ [bad]) →
          out ≠ png_path (rasters_dir host) (source row)) →
  run_export host self st = with_critical msg st1 ∧
  files (run_export host self st) !! out = files st !! out ∧
  critical (run_export host self st) = (critical st ++ [msg])%list.
Proof.
  intros Hout Hne Hrows Hfail Hpaths.
  assert (run_export host self st = with_critical msg st1) as Hrun.
  { assert (tableLayers self = ((pre ++ [bad]) ++ post)%list) as Hrows'
      by (by rewrite Hrows, <- app_assoc).
    rewrite (run_export_cases host self st out Hout Hne), assemble_eq.
    set (total := count_rasters (tableLayers self)) in *.
    rewrite Hrows'. by rewrite (loop_abort _ _ _ _ _ _ _ _ _ _ _ _ Hfail). }
  rewrite Hrun. split; [done|].
  pose proof (loop_files_frame host (progressBar self) (count_rasters (tableLayers self))
                (rasters_dir host) (pre ++ [bad]) empty_document [] 0
                (begin_progress self st) out Hpaths) as Hframe.
  pose proof (loop_critical host (progressBar self) (count_rasters (tableLayers self))
                (rasters_dir host) (pre ++ [bad]) empty_document [] 0
                (begin_progress self st)) as Hcrit.
  rewrite Hfail in Hframe, Hcrit. simpl in Hframe, Hcrit.
  split; simpl.
  - rewrite Hframe. unfold begin_progress. by destruct (progressBar self).
  - rewrite Hcrit. unfold begin_progress. by destruct (progressBar self).
Qed.


(** ** Bounds and reprojection *)

(** C3, as the code has it: the LatLonBox of an exported raster carries
    north = origin_y, west = origin_x, east = west + pixel_width * width
    and south = north + pixel_height * height, read from the geographic
    view of the dataset. Nothing orders the box: south is below north
    exactly when pixel_height * height is negative, and west is left of
    east exactly when pixel_width * width is positive. *)
Theorem LatLonBox_bounds host doc path props dir st doc' p st' ds :
  add_raster_layer host doc path props dir st = (Return (doc', p), st') →
  gdal_Open host path = Return (Some ds) →
  ∃ view go,
    geographic_view host ds = Return view ∧
    last (children doc') = Some go ∧
    let gt := GetGeoTransform view in
    let north := gt3 gt in
    let west := gt0 gt in
    let east := (west + gt1 gt * inject_Z (RasterXSize view))%Q in
    let south := (north + gt5 gt * inject_Z (RasterYSize view))%Q in
    find "LatLonBox" go
      = Some (Elem "LatLonBox" [] None
                [leaf "north" (float_str host north);
                 leaf "south" (float_str host south);
                 leaf "east" (float_str host east);
                 leaf "west" (float_str host west)]) ∧
    ((south < north)%Q ↔ (gt5 gt * inject_Z (RasterYSize view) < 0)%Q) ∧
    ((west < east)%Q ↔ (0 < gt1 gt * inject_Z (RasterXSize view))%Q).
Proof.
  intros (ds' & view & _ & Hopen & Hview & -> & _ & _)%add_raster_layer_inv Hds.
  assert (ds' = ds) as -> by congruence.
  eexists view, _. split; [done|].
  rewrite children_append, last_snoc. split; [done|].
  split; [done|]. split; split; intros H; lra.
Qed.


(** ** The theorems at work on the sample runs *)


Lemma placemark_count_and_order_witness :
  ∃ folder,
    children Sample.towns_doc = (children empty_document ++ [folder])%list ∧
    tag folder = "Folder" ∧
    children folder
      = leaf "name" (folder_label Sample.towns_props Sample.towns_path)
          :: findall "Placemark" folder ∧
    length (findall "Placemark" folder) = length (features Demo.towns) ∧
    Forall2 (λ feat pm,
               placemark Demo.host Sample.towns_props (field_names Demo.towns) feat
               = Return pm)
            (features Demo.towns) (findall "Placemark" folder).
Proof.
  apply (placemark_count_and_order Demo.host empty_document Sample.towns_path
           Sample.towns_props Sample.towns_doc Demo.towns);
    vm_compute; reflexivity.
Defined.

Lemma binding_resolution_witness :
  ∃ pm, findall "Placemark" Sample.towns_folder !! 0%nat = Some pm ∧
    ("id" ∈ field_names Demo.towns →
       find "name" pm = Some (leaf "name" (py_str Demo.host (GetField Demo.town_A "id")))) ∧
    ("id" ∉ field_names Demo.towns → find "name" pm = Some (leaf "name" "id")).
Proof.
  apply (binding_resolution Demo.host empty_document Sample.towns_path
           Sample.towns_props Sample.towns_doc Demo.towns Sample.towns_folder
           0%nat Demo.town_A "name" "id");
    first [ apply list_elem_of_here | vm_compute; reflexivity ].
Defined.

Lemma extended_data_entries_witness :
  ∃ pm ext, findall "Placemark" Sample.towns_folder !! 0%nat = Some pm ∧
    find "ExtendedData" pm = Some ext ∧
    children ext
      = List.map (data_entry Demo.host Demo.town_A)
          (filter (λ f, f ∈ field_names Demo.towns) ["pop"; "area"]) ∧
    (∀ fld, data_entry Demo.host Demo.town_A fld ∈ children ext
            ↔ fld ∈ ["pop"; "area"] ∧ fld ∈ field_names Demo.towns) ∧
    (NoDup ["pop"; "area"] → NoDup (children ext)).
Proof.
  apply (extended_data_entries Demo.host empty_document Sample.towns_path
           Sample.towns_props Sample.towns_doc Demo.towns Sample.towns_folder
           0%nat Demo.town_A ["pop"; "area"]);
    first [ discriminate | vm_compute; reflexivity ].
Defined.

Lemma extended_data_always_present_witness :
  ∃ pm ext, findall "Placemark" Sample.absent_folder !! 1%nat = Some pm ∧
    find "ExtendedData" pm = Some ext ∧ tag ext = "ExtendedData" ∧
    ((∀ fld, fld ∈ ["area"; "mayor"] → fld ∉ field_names Demo.towns) →
     children ext = []).
Proof.
  apply (extended_data_always_present Demo.host empty_document Sample.towns_path
           Sample.absent_props Sample.absent_doc Demo.towns Sample.absent_folder
           1%nat Demo.town_B ["area"; "mayor"]);
    first [ discriminate | vm_compute; reflexivity ].
Defined.


(** C5 as stated fails on a list that names a field twice: the field is
    emitted once per occurrence. *)
Lemma repeated_field_repeated_entry :
  add_vector_layer Demo.host empty_document "/data/towns.shp"
    (Demo.props_of [] (Some ["pop"; "pop"]))
  = Return
      (Elem "Document" [] None
         [Elem "Folder" [] None
            [leaf "name" "towns";
             Elem "Placemark" [] None
               [Elem "ExtendedData" [] None
                  [Elem "Data" [("name", "pop")] None [leaf "value" "10"];
                   Elem "Data" [("name", "pop")] None [leaf "value" "10"]];
                Elem "Point" [] None [leaf "coordinates" "1,2"]];
             Elem "Placemark" [] None
               [Elem "ExtendedData" [] None
                  [Elem "Data" [("name", "pop")] None [leaf "value" "None"];
                   Elem "Data" [("name", "pop")] None [leaf "value" "None"]]]]]).
Proof. vm_compute. reflexivity. Qed.

(** C3 as stated fails on a raster that is already geographic and stored
    south-up (positive pixel height): its extent is not degenerate, no
    reprojection takes place, and the box gets north = 0 below south = 2. *)
Lemma south_up_raster_inverts_box :
  gdal_Open Demo.host "/data/up.tif" = Return (Some Demo.south_up) ∧
  nondegenerate Demo.south_up ∧
  geographic_view Demo.host Demo.south_up = Return Demo.south_up ∧
  (Sample.raster_run "/data/up.tif").1
  = Return
      (Elem "Document" [] None
         [Elem "GroundOverlay" [] None
            [leaf "visibility" "1"; leaf "name" "up";
             Elem "Icon" [] None [leaf "href" "rasters/up.png"];
             LatLonBox Demo.host (0, 2, 2, 0)%Q]],
       "/tmp/tmpk3x9/rasters/up.png") ∧
  bounds Demo.south_up = (0, 2, 2, 0)%Q ∧
  (0 < 2)%Q.
Proof.
  split; [done|]. split.
  { repeat split; try done; vm_compute; discriminate. }
  repeat split; vm_compute; reflexivity.
Qed.

Lemma LatLonBox_bounds_witness :
  ∃ view go,
    geographic_view Demo.host Demo.projected = Return view ∧
    last (children (Sample.raster_doc "/data/utm.tif")) = Some go ∧
    let gt := GetGeoTransform view in
    let north := gt3 gt in
    let west := gt0 gt in
    let east := (west + gt1 gt * inject_Z (RasterXSize view))%Q in
    let south := (north + gt5 gt * inject_Z (RasterYSize view))%Q in
    find "LatLonBox" go
      = Some (Elem "LatLonBox" [] None
                [leaf "north" (float_str Demo.host north);
                 leaf "south" (float_str Demo.host south);
                 leaf "east" (float_str Demo.host east);
                 leaf "west" (float_str Demo.host west)]) ∧
    ((south < north)%Q ↔ (gt5 gt * inject_Z (RasterYSize view) < 0)%Q) ∧
    ((west < east)%Q ↔ (0 < gt1 gt * inject_Z (RasterXSize view))%Q).
Proof.
  apply (LatLonBox_bounds Demo.host empty_document "/data/utm.tif"
           (Demo.props_of [] None) (rasters_dir Demo.host) Demo.st0
           (Sample.raster_doc "/data/utm.tif") "/tmp/tmpk3x9/rasters/utm.png"
           (Sample.raster_run "/data/utm.tif").2 Demo.projected);
    vm_compute; reflexivity.
Defined.



(** C8 as stated fails when the error comes after the layers: the PNG of
    a raster too large for a [QImage] is never written ([save] returns
    [False], which is ignored), adding it to the archive raises, and the
    archive holding the document alone stays at the output path, next to
    the error message. *)
Lemma packaging_error_leaves_archive :
  let st := run_export Demo.host (Sample.plugin [Sample.huge_row]) Demo.st0 in
  files Demo.st0 !! Sample.out = None ∧
  critical st
    = ["[Errno 2] No such file or directory: '/tmp/tmpk3x9/rasters/huge.png'"] ∧
  files st !! Sample.out
    = Some (FZip
        [("doc.kml",
          FKml (kml_root
            (Elem "Document" [] None
               [Elem "GroundOverlay" [] None
                  [leaf "visibility" "1"; leaf "name" "huge";
                   Elem "Icon" [] None [leaf "href" "rasters/huge.png"];
                   LatLonBox Demo.host (bounds Demo.north_up)]])))]).
Proof. vm_compute. repeat split. Qed.

Lemma layer_error_aborts_witness :
  run_export Demo.host Sample.failing Demo.st0
    = with_critical "Cannot load raster /data/missing.tif" Sample.failing_state ∧
  files (run_export Demo.host Sample.failing Demo.st0) !! Sample.out
    = files Demo.st0 !! Sample.out ∧
  critical (run_export Demo.host Sample.failing Demo.st0)
    = (critical Demo.st0 ++ ["Cannot load raster /data/missing.tif"])%list.
Proof.
  apply (layer_error_aborts Demo.host Sample.failing Demo.st0 Sample.out
           [Sample.towns_row] Sample.missing_row [Sample.dem_row]
           "Cannot load raster /data/missing.tif" Sample.failing_state).
  - reflexivity.
  - discriminate.
  - reflexivity.
  - vm_compute. reflexivity.
  - apply Forall_forall. vm_compute. repeat constructor. discriminate.
Defined.


(** * Further properties *)

(** ** Strings and paths *)

Lemma rfind_from_app c s1 : ∀ s2 i last,
  Py.rfind_from c (s1 +:+ s2) i last
  = Py.rfind_from c s2 (i + Z.of_nat (String.length s1)) (Py.rfind_from c s1 i last).
Proof.
  induction s1 as [|a s1 IH]; intros s2 i last; simpl.
  - by rewrite Z.add_0_r.
  - rewrite IH. f_equal. lia.
Qed.

Lemma rfind_from_absent c s : ∀ i last,
  contains c s = false → Py.rfind_from c s i last = last.
Proof.
  induction s as [|a s IH]; intros i last H; [done|].
  simpl in *. apply orb_false_iff in H as [-> H]. by apply IH.
Qed.

Lemma contains_app c a b : contains c (a +:+ b) = contains c a || contains c b.
Proof.
  induction a as [|x a IH]; [done|].
  change (Ascii.eqb x c || contains c (a +:+ b)
          = Ascii.eqb x c || contains c a || contains c b).
  by rewrite IH, orb_assoc.
Qed.

Lemma length_append a b :
  String.length (a +:+ b) = (String.length a + String.length b)%nat.
Proof. induction a as [|x a IH]; [done|]. exact (f_equal S IH). Qed.

Lemma substring_all s : String.substring 0 (String.length s) s = s.
Proof. induction s as [|a s IH]; simpl; [done|by rewrite IH]. Qed.

Lemma substring_skip a b :
  String.substring (String.length a) (String.length b) (a +:+ b) = b.
Proof. induction a as [|x a IH]; simpl; [apply substring_all|done]. Qed.

Lemma contains_prefix c s : ∀ n,
  contains c s = false → contains c (String.substring 0 n s) = false.
Proof.
  induction s as [|a s IH]; intros n H; [by destruct n|].
  simpl in H. apply orb_false_iff in H as [Ha H].
  destruct n as [|n]; [done|]. simpl. by rewrite Ha, IH.
Qed.

Lemma app_assoc_string a b c : (a +:+ b) +:+ c = a +:+ b +:+ c.
Proof. induction a as [|x a IH]; [done|]. exact (f_equal (String x) IH). Qed.

(** What follows the last slash is the base name. *)
Lemma rfind_after_slash pre n :
  contains "/" n = false →
  Py.rfind "/" ((pre +:+ "/") +:+ n) = Z.of_nat (String.length pre).
Proof.
  intros Hn. unfold Py.rfind. rewrite !rfind_from_app.
  by rewrite rfind_from_absent.
Qed.

Lemma basename_after_slash pre n :
  contains "/" n = false → Py.basename (pre +:+ "/" +:+ n) = n.
Proof.
  intros Hn. rewrite <- app_assoc_string.
  unfold Py.basename, Py.slice_from. rewrite rfind_after_slash by done.
  assert (Z.to_nat (Z.of_nat (String.length pre) + 1)
          = String.length (pre +:+ "/")) as ->
    by (rewrite length_append; simpl; lia).
  rewrite (length_append (pre +:+ "/") n).
  replace (String.length (pre +:+ "/") + String.length n
           - String.length (pre +:+ "/"))%nat with (String.length n) by lia.
  apply substring_skip.
Qed.

Lemma basename_plain n : contains "/" n = false → Py.basename n = n.
Proof.
  intros Hn. unfold Py.basename, Py.slice_from, Py.rfind.
  rewrite rfind_from_absent by done. simpl.
  rewrite Nat.sub_0_r. apply substring_all.
Qed.

Lemma split_last_slash p :
  contains "/" p = false ∨
  ∃ pre n, p = pre +:+ "/" +:+ n ∧ contains "/" n = false.
Proof.
  induction p as [|a p IH]; [by left|].
  destruct IH as [Hno|(pre & n & -> & Hn)].
  - destruct (Ascii.eqb a "/") eqn:Ea.
    + right. apply Ascii.eqb_eq in Ea as ->. by exists "", p.
    + left. simpl. by rewrite Ea.
  - right. by exists (String a pre), n.
Qed.

Lemma basename_no_slash p : contains "/" (Py.basename p) = false.
Proof.
  destruct (split_last_slash p) as [Hno|(pre & n & -> & Hn)].
  - by rewrite basename_plain.
  - by rewrite basename_after_slash.
Qed.

Lemma splitext_root_no_slash s :
  contains "/" s = false → contains "/" (Py.splitext_root s) = false.
Proof.
  intros Hs. unfold Py.splitext_root, Py.slice.
  destruct (_ <? _); [|done]. destruct (Py.all_dots _); [done|].
  by apply contains_prefix.
Qed.

Lemma last_char_snoc a c : last_char a = Some c → ∃ pre, a = pre +:+ String c "".
Proof.
  induction a as [|x a IH]; [done|].
  destruct a as [|y a].
  - intros [= ->]. by exists "".
  - intros H. destruct (IH H) as [pre ->]. by exists (String x pre).
Qed.

Lemma rev_app_head a : ∀ acc,
  a ≠ "" → ∃ r, String.rev_app a acc = String (default "/"%char (last_char a)) r
           ∧ is_Some (last_char a).
Proof.
  induction a as [|x a IH]; intros acc Ha; [done|].
  destruct a as [|y a].
  - simpl. by eexists.
  - destruct (IH (String x acc)) as (r & Hr & Hs); [done|].
    exists r. split; [|done]. exact Hr.
Qed.

Lemma endswith_slash_snoc a :
  Py.endswith_slash a = true → ∃ pre, a = pre +:+ "/".
Proof.
  unfold Py.endswith_slash, String.rev. intros H.
  destruct a as [|x a]; [done|].
  destruct (rev_app_head (String x a) "") as (r & Hr & [c Hc]); [done|].
  rewrite Hr, Hc in H. simpl in H.
  apply last_char_snoc. rewrite Hc. f_equal.
  unfold Py.startswith_slash in H.
  destruct c as [[] [] [] [] [] [] [] []]; try done.
Qed.

(** Joining a directory and a plain file name, then taking the base name,
    gives the file name back. *)
Lemma basename_join a n :
  contains "/" n = false → Py.basename (Py.join a n) = n.
Proof.
  intros Hn. unfold Py.join.
  assert (Py.startswith_slash n = false) as ->.
  { destruct n as [|c n]; [done|]. simpl in Hn.
    apply orb_false_iff in Hn as [Hc _].
    unfold Py.startswith_slash.
    destruct c as [[] [] [] [] [] [] [] []]; try done. }
  destruct a as [|x a]; simpl negb; simpl orb.
  - simpl. by apply basename_plain.
  - destruct (Py.endswith_slash (String x a)) eqn:E.
    + apply endswith_slash_snoc in E as [pre ->].
      rewrite app_assoc_string. by apply basename_after_slash.
    + by apply basename_after_slash.
Qed.

Lemma png_name_no_slash path :
  contains "/" (Py.splitext_root (Py.basename path) +:+ ".png") = false.
Proof.
  rewrite contains_app, splitext_root_no_slash by apply basename_no_slash. done.
Qed.

Lemma png_arcname_path dir path :
  png_arcname (png_path dir path)
  = "rasters/" +:+ (Py.splitext_root (Py.basename path) +:+ ".png").
Proof.
  unfold png_arcname, png_path. by rewrite basename_join by apply png_name_no_slash.
Qed.

(** ** The property dictionary of a row *)

Lemma fold_left_pointwise {A B} (f g : A → B → A) l : ∀ a,
  (∀ a b, f a b = g a b) → fold_left f l a = fold_left g l a.
Proof.
  induction l as [|b l IH]; intros a H; [done|]. simpl. rewrite H. by apply IH.
Qed.

Lemma read_props_fold row :
  bindings (read_props row)
  = fold_left (read_cell row) (combine (seq 3 (length KML_PROPS)) KML_PROPS) ∅.
Proof.
  unfold read_props. cbv [bindings]. apply fold_left_pointwise.
  by intros props [j prop].
Qed.

Lemma read_cell_other row props jp k :
  Py.lower jp.2 ≠ k → read_cell row props jp !! k = props !! k.
Proof.
  intros Hk. unfold read_cell. destruct (_ && _); [|done].
  by rewrite lookup_insert_ne.
Qed.

Lemma read_cell_same row props j prop :
  read_cell row props (j, prop) !! Py.lower prop
  = match cell_binding row j with Some t => Some t | None => props !! Py.lower prop end.
Proof.
  unfold read_cell, cell_binding. simpl. destruct (_ && _); [|done].
  by rewrite lookup_insert_eq.
Qed.

(** A key that no column writes keeps its value. *)
Lemma read_cells_other row l : ∀ props k,
  Forall (λ jp, Py.lower jp.2 ≠ k) l →
  fold_left (read_cell row) l props !! k = props !! k.
Proof.
  induction l as [|jp l IH]; intros props k Hl; [done|].
  apply Forall_cons in Hl as [Hjp Hl]. simpl.
  rewrite IH by done. by apply read_cell_other.
Qed.

(** With distinct keys, a key holds what its own column wrote. *)
Lemma read_cells_same row l : ∀ props j prop,
  NoDup ((λ jp, Py.lower jp.2) <$> l) → (j, prop) ∈ l →
  fold_left (read_cell row) l props !! Py.lower prop
  = match cell_binding row j with
    | Some t => Some t
    | None => props !! Py.lower prop
    end.
Proof.
  induction l as [|jp l IH]; intros props j prop Hnd Hin.
  - by apply elem_of_nil in Hin.
  - rewrite fmap_cons in Hnd. apply NoDup_cons in Hnd as [Hfresh Hnd].
    simpl. apply elem_of_cons in Hin as [Heq|Hin].
    + subst jp. rewrite read_cells_other; [apply read_cell_same|].
      apply Forall_forall. intros jp Hjp Heq. apply Hfresh.
      simpl. rewrite <- Heq. apply (list_elem_of_fmap_2 (λ jp, Py.lower jp.2)), Hjp.
    + rewrite (IH _ _ _ Hnd Hin).
      rewrite read_cell_other; [done|].
      intros Heq. apply Hfresh. rewrite Heq.
      apply (list_elem_of_fmap_2 (λ jp, Py.lower jp.2) _ (j, prop)), Hin.
Qed.

Lemma columns_distinct :
  NoDup ((λ jp : nat * string, Py.lower jp.2)
           <$> combine (seq 3 (length KML_PROPS)) KML_PROPS).
Proof. apply (bool_decide_unpack _). vm_compute. exact I. Qed.

Lemma column_of_prop j prop :
  KML_PROPS !! j = Some prop →
  ((3 + j)%nat, prop) ∈ combine (seq 3 (length KML_PROPS)) KML_PROPS.
Proof.
  intros H. apply list_elem_of_lookup. exists j.
  do 11 (destruct j as [|j]; [by injection H as <-|]). done.
Qed.

(** X1: each property column fills the key named after it in lower case,
    with the text of its combo box stripped of surrounding white space;
    a cell left empty, blank or at [<None>] leaves the key out. *)
Theorem read_props_lookup row j prop :
  KML_PROPS !! j = Some prop →
  bindings (read_props row) !! Py.lower prop = cell_binding row (3 + j).
Proof.
  intros H. rewrite read_props_fold.
  rewrite (read_cells_same row _ ∅ (3 + j)%nat prop columns_distinct
             (column_of_prop _ _ H)).
  rewrite lookup_empty. by destruct (cell_binding row (3 + j)).
Qed.

Lemma read_props_absent row k :
  k ∉ Py.lower <$> KML_PROPS → bindings (read_props row) !! k = None.
Proof.
  intros Hk. rewrite read_props_fold, read_cells_other; [done|].
  apply Forall_forall. intros [j prop] Hin Heq. apply Hk.
  simpl in Heq. subst k. apply list_elem_of_fmap_2.
  apply list_elem_of_In in Hin. apply in_combine_r in Hin.
  by apply list_elem_of_In.
Qed.

Lemma read_props_no_folder_name row :
  Py.get_truthy (bindings (read_props row)) "folder_name" = None.
Proof.
  unfold Py.get_truthy. rewrite read_props_absent; [done|].
  apply (bool_decide_unpack _). vm_compute. exact I.
Qed.

Lemma read_props_name row :
  Py.get_truthy (bindings (read_props row)) "name" = cell_binding row 3.
Proof.
  unfold Py.get_truthy.
  pose proof (read_cells_same row _ ∅ 3%nat "Name" columns_distinct
                (column_of_prop 0 "Name" eq_refl)) as H.
  rewrite <- read_props_fold in H.
  change (Py.lower "Name") with "name" in H. rewrite H, lookup_empty.
  destruct (cell_binding row 3) as [t|] eqn:Eb; [|done]. revert Eb.
  unfold cell_binding. simpl. destruct (Py.truthy _) eqn:Et; simpl; [|done].
  destruct (negb _); [|done]. intros [= <-]. by rewrite Et.
Qed.

(** X2: exported from the table, a vector layer always gets a Folder named
    after its file (base name without extension), and its Placemarks hold
    nothing but a name, a description and the geometry: the table cannot
    set [folder_name] or [fields]. *)
Theorem table_vector_folder host doc row doc' layer :
  add_vector_layer host doc (source row) (read_props row) = Return doc' →
  open_layer host (source row) = Some layer →
  ∃ pms,
    children doc'
      = (children doc
         ++ [Elem "Folder" [] None
               (leaf "name" (Py.splitext_root (Py.basename (source row))) :: pms)])%list ∧
    Forall2
      (λ feat pm, ∃ els,
         children pm
           = (name_part host (read_props row) (field_names layer) feat
              ++ description_part host (read_props row) (field_names layer) feat
              ++ els)%list ∧
         match GetGeometryRef feat with
         | Some geom => geometry_kml host geom = Return els
         | None => els = []
         end)
      (features layer) pms.
Proof.
  intros (ds & layer' & pms & Hds & Hl & Hall & ->)%add_vector_layer_inv
         (ds' & Hds' & Hl')%open_layer_inv.
  assert (layer' = layer) as -> by congruence.
  exists pms. rewrite children_append. split.
  - unfold folder_label. by rewrite read_props_no_folder_name.
  - eapply Forall2_impl; [exact Hall|]. intros feat pm Hpm.
    destruct (placemark_inv _ _ _ _ _ Hpm) as (els & Hc & Hgeo).
    exists els. rewrite Hc, placemark_head_children. split.
    + unfold extended_part. simpl. by rewrite <- !app_assoc.
    + destruct (GetGeometryRef feat); [done|]. by destruct Hgeo.
Qed.

(** ** More on the two exporters *)

(** X3: exported from the table, a raster gets a GroundOverlay that is
    always visible and is named by the text of its Name column, or after
    its file when that cell is blank or [<None>]. *)
Theorem table_raster_overlay host doc row dir st doc' p st' :
  add_raster_layer host doc (source row) (read_props row) dir st
    = (Return (doc', p), st') →
  ∃ go,
    last (children doc') = Some go ∧ tag go = "GroundOverlay" ∧
    find "visibility" go = Some (leaf "visibility" "1") ∧
    find "name" go
      = Some (leaf "name"
                (default (Py.splitext_root (Py.basename (source row)))
                         (cell_binding row 3))).
Proof.
  intros (ds & view & _ & _ & _ & -> & _ & _)%add_raster_layer_inv.
  eexists. rewrite children_append, last_snoc. split; [done|].
  split; [done|]. split; [done|].
  unfold raster_label. rewrite read_props_no_folder_name, read_props_name.
  by destruct (cell_binding row 3).
Qed.

(** X4: the Icon of a GroundOverlay points at [rasters/<base>.png], which
    is exactly the name under which the collected PNG is stored in the
    archive. *)
Theorem overlay_href_is_archive_member host doc path props dir st doc' p st' :
  add_raster_layer host doc path props dir st = (Return (doc', p), st') →
  ∃ go icon,
    last (children doc') = Some go ∧
    find "Icon" go = Some icon ∧
    find "href" icon = Some (leaf "href" (png_arcname p)) ∧
    png_arcname p = "rasters/" +:+ Py.splitext_root (Py.basename path) +:+ ".png".
Proof.
  intros (ds & view & _ & _ & _ & -> & -> & _)%add_raster_layer_inv.
  eexists _, _. rewrite children_append, last_snoc. split; [done|].
  split; [done|]. by rewrite png_arcname_path.
Qed.

Lemma add_features_failure host props avail pre : ∀ folder bad post e,
  Forall (λ feat, ∃ pm, placemark host props avail feat = Return pm) pre →
  placemark host props avail bad = Raise e →
  add_features host props avail folder (pre ++ bad :: post) = Raise e.
Proof.
  induction pre as [|feat pre IH]; intros folder bad post e Hpre Hbad; simpl.
  - by rewrite Hbad.
  - apply Forall_cons in Hpre as [[pm ->] Hpre]. simpl. by apply IH.
Qed.

(** X5: a vector layer is exported all or nothing: the first feature whose
    geometry cannot be translated makes [add_vector_layer] raise that very
    error, whatever the features after it. *)
Theorem first_failing_geometry host doc path props layer pre bad post geom e :
  open_layer host path = Some layer →
  features layer = (pre ++ bad :: post)%list →
  Forall (λ feat, ∀ g, GetGeometryRef feat = Some g →
                    ∃ els, geometry_kml host g = Return els) pre →
  GetGeometryRef bad = Some geom →
  geometry_kml host geom = Raise e →
  add_vector_layer host doc path props = Raise e.
Proof.
  intros (ds & Hds & Hl)%open_layer_inv Hfeats Hpre Hgeom He.
  unfold add_vector_layer. rewrite Hds. simpl. rewrite Hl, Hfeats.
  rewrite (add_features_failure host props (field_names layer) pre _ bad post e); [done| |].
  - eapply Forall_impl; [exact Hpre|]. intros feat Hfeat. unfold placemark.
    destruct (GetGeometryRef feat) as [g|] eqn:Eg; [|by eexists].
    destruct (Hfeat g Eg) as [els ->]. by eexists.
  - unfold placemark. by rewrite Hgeom, He.
Qed.

(** X6: when [add_raster_layer] raises, an invalid layer has left nothing
    behind, but any later failure (the dataset cannot be opened or
    reprojected) comes after the image was rendered: the PNG is already in
    the temporary directory. Nothing else is written either way. *)
Theorem raster_failure_state host doc path props dir st e st' :
  add_raster_layer host doc path props dir st = (Raise e, st') →
  let rlayer := QgsRasterLayer host path in
  (isValid rlayer = false → st' = st ∧ e = "Cannot load raster " +:+ path) ∧
  (isValid rlayer = true →
   QImage_save host (width rlayer) (height rlayer) (png_path dir path) = true →
   files st' !! png_path dir path
     = Some (FPng path (width rlayer) (height rlayer))) ∧
  (∀ f, f ≠ png_path dir path → files st' !! f = files st !! f).
Proof.
  intros H. pose proof (add_raster_layer_state host doc path props dir st) as Hst.
  rewrite H in Hst. simpl in Hst. subst st'. simpl. split; [|split].
  - intros Hv. unfold add_raster_layer in H. rewrite Hv in H. simpl in H.
    injection H as <-. unfold after_raster, png_saved. by rewrite Hv.
  - intros Hv Hs. unfold after_raster, png_saved. rewrite Hv, Hs. simpl.
    by rewrite lookup_insert_eq.
  - intros f Hf. by apply after_raster_files.
Qed.

(** X7: two rasters whose file names share a base name collide: both
    exports return the same PNG path and give their overlays the same
    Icon, and the file there is the rendering of the raster exported
    last. *)
Theorem same_base_name_collision host doc p1 p2 props1 props2 dir
    st doc1 f1 st1 doc2 f2 st2 :
  Py.splitext_root (Py.basename p1) = Py.splitext_root (Py.basename p2) →
  add_raster_layer host doc p1 props1 dir st = (Return (doc1, f1), st1) →
  add_raster_layer host doc1 p2 props2 dir st1 = (Return (doc2, f2), st2) →
  QImage_save host (width (QgsRasterLayer host p2)) (height (QgsRasterLayer host p2))
              (png_path dir p2) = true →
  f1 = f2 ∧
  files st2 !! f1
    = Some (FPng p2 (width (QgsRasterLayer host p2)) (height (QgsRasterLayer host p2))) ∧
  ∃ go1 go2, children doc2 = (children doc ++ [go1; go2])%list ∧
             find "Icon" go1 = find "Icon" go2.
Proof.
  intros Hbase
    (ds1 & v1 & _ & _ & _ & -> & -> & ->)%add_raster_layer_inv
    (ds2 & v2 & Hv2 & _ & _ & -> & -> & ->)%add_raster_layer_inv Hs.
  assert (png_path dir p1 = png_path dir p2) as Hp
    by (unfold png_path; by rewrite Hbase).
  split; [done|]. split.
  - rewrite Hp. unfold after_raster at 1, png_saved. rewrite Hv2, Hs. simpl.
    by rewrite lookup_insert_eq.
  - eexists _, _. rewrite !children_append, <- app_assoc. split; [done|].
    unfold find, findall. simpl. by rewrite Hbase.
Qed.

(** ** More on the loop and the whole run *)





Section LoopMore.

Variable host : Host.
Variable progress : bool.
Variable total : Z.
Variable dir : string.

Local Abbreviation loop := (export_layers host progress total dir).
Local Abbreviation step_percent := (after_percent progress total).

(** Unchecked rows might as well not be in the table. *)
Lemma loop_checked_only rows : ∀ doc collected rc st,
  loop rows doc collected rc st
  = loop (filter (λ r, checked r = true) rows) doc collected rc st.
Proof.
  induction rows as [|row rest IH]; intros doc collected rc st; [done|].
  destruct (checked row) eqn:Hc.
  - rewrite filter_cons_True by done. rewrite !loop_step, Hc. simpl.
    destruct (is_raster row).
    + destruct (add_raster_layer _ _ _ _ _ _) as [[[doc' p]|e] st1]; [apply IH|done].
    + destruct (add_vector_layer _ _ _ _); [apply IH|done].
  - rewrite filter_cons_False by (by rewrite Hc). rewrite loop_step, Hc. apply IH.
Qed.

(** Each checked row adds one element to the document, a GroundOverlay
    for a raster and a Folder otherwise. *)
Lemma loop_document rows : ∀ doc collected rc st doc' collected' st',
  loop rows doc collected rc st = (Return (doc', collected'), st') →
  tag doc' = tag doc ∧
  List.map tag (children doc')
  = (List.map tag (children doc)
     ++ List.map row_tag (filter (λ r, checked r = true) rows))%list.
Proof.
  induction rows as [|row rest IH]; intros doc collected rc st doc' collected' st' H.
  - injection H as <- <- <-. by rewrite app_nil_r.
  - rewrite loop_step in H. destruct (checked row) eqn:Hc; simpl in H.
    + rewrite filter_cons_True by done.
      destruct (is_raster row) eqn:Er.
      * destruct (add_raster_layer _ _ _ _ _ _) as [[[doc1 p]|e] st1] eqn:Hr; [|done].
        apply add_raster_layer_inv in Hr as (ds & view & _ & _ & _ & -> & _ & _).
        apply IH in H as [-> ->].
        rewrite tag_append, children_append, map_app, <- app_assoc.
        simpl. unfold row_tag at 2. by rewrite Er.
      * destruct (add_vector_layer _ _ _ _) as [doc1|e] eqn:Hv; [|done].
        apply add_vector_layer_inv in Hv as (ds & layer & pms & _ & _ & _ & ->).
        apply IH in H as [-> ->].
        rewrite tag_append, children_append, map_app, <- app_assoc.
        simpl. unfold row_tag at 2. by rewrite Er.
    + rewrite filter_cons_False by (by rewrite Hc). by eapply IH.
Qed.


Lemma after_percent_boxes k st : boxes (step_percent k st) = boxes st.
Proof. unfold after_percent. by destruct (progress && negb (total =? 0)). Qed.

Lemma after_raster_boxes path st : boxes (after_raster host dir path st) = boxes st.
Proof. unfold after_raster. by destruct (png_saved host dir path). Qed.

(** The loop shows nothing: no message, no critical box, and it leaves
    the dialog alone. *)
Lemma loop_boxes rows : ∀ doc collected rc st,
  boxes (loop rows doc collected rc st).2 = boxes st.
Proof.
  induction rows as [|row rest IH]; intros doc collected rc st; [done|].
  rewrite loop_step.
  destruct (checked row); simpl; [|by apply IH].
  destruct (is_raster row); simpl.
  - pose proof (add_raster_layer_state host doc (source row) (read_props row) dir st) as Hst.
    destruct (add_raster_layer _ _ _ _ _ _) as [[[doc' p]|e] st1]; simpl in Hst; subst st1.
    + by rewrite IH, after_percent_boxes, after_raster_boxes.
    + simpl. apply after_raster_boxes.
  - destruct (add_vector_layer _ _ _ _); [by apply IH|done].
Qed.

End LoopMore.

Lemma selected_rasters_checked rows :
  selected_rasters (filter (λ r, checked r = true) rows) = selected_rasters rows.
Proof.
  induction rows as [|row rest IH]; [done|].
  rewrite selected_rasters_cons. destruct (checked row) eqn:Hc.
  - rewrite filter_cons_True by done. by rewrite selected_rasters_cons, Hc, IH.
  - rewrite filter_cons_False by (by rewrite Hc). by rewrite andb_false_r.
Qed.

(** ** Writing the artifact, continued *)

Lemma zf_write_all_frame out todo : ∀ entries st f,
  f ≠ out → files (zf_write_all out entries todo st).2 !! f = files st !! f.
Proof.
  induction todo as [|[src arc] todo IH]; intros entries st f Hf; [done|].
  simpl. destruct (files st !! src) as [g|]; [|done].
  rewrite IH by done. simpl. by rewrite lookup_insert_ne.
Qed.

Lemma zf_write_all_boxes out todo : ∀ entries st,
  boxes (zf_write_all out entries todo st).2 = boxes st.
Proof.
  induction todo as [|[src arc] todo IH]; intros entries st; [done|].
  simpl. destruct (files st !! src) as [g|]; [|done]. by rewrite IH.
Qed.

Lemma package_frame out kml collected st f :
  f ≠ out → f ≠ kml →
  files (package out kml collected st).2 !! f = files st !! f.
Proof.
  intros Hout Hkml. destruct collected as [|g gs]; simpl.
  - unfold os_replace. destruct (files st !! kml); [|done]. simpl.
    rewrite lookup_insert_ne by done. by rewrite lookup_delete_ne.
  - unfold write_kmz, mbind, M_bind, modify.
    rewrite zf_write_all_frame by done. simpl. by rewrite lookup_insert_ne.
Qed.

Lemma package_kmz_frame out kml collected st f :
  collected ≠ [] → f ≠ out →
  files (package out kml collected st).2 !! f = files st !! f.
Proof.
  intros Hne Hout. destruct collected as [|g gs]; [done|]. simpl.
  unfold write_kmz, mbind, M_bind, modify.
  rewrite zf_write_all_frame by done. simpl. by rewrite lookup_insert_ne.
Qed.

Lemma package_boxes out kml collected st :
  boxes (package out kml collected st).2 = boxes st.
Proof.
  destruct collected as [|g gs]; simpl.
  - unfold os_replace. by destruct (files st !! kml).
  - unfold write_kmz, mbind, M_bind, modify. by rewrite zf_write_all_boxes.
Qed.

(** ** A whole run, continued *)

(** X8: the Document of a run holds one element per checked row, in table
    order: a GroundOverlay for a raster, a Folder for anything else. *)
Theorem document_order host self st doc collected st1 :
  assemble host self st = (Return (doc, collected), st1) →
  tag doc = "Document" ∧
  List.map tag (children doc)
  = List.map row_tag (filter (λ r, checked r = true) (tableLayers self)).
Proof.
  rewrite assemble_eq. intros H. by apply loop_document in H as [-> ->].
Qed.

Lemma assemble_checked_only host self st :
  assemble host (with_table (filter (λ r, checked r = true) (tableLayers self)) self) st
  = assemble host self st.
Proof.
  rewrite !assemble_eq. simpl tableLayers. simpl progressBar.
  rewrite !count_rasters_selected, selected_rasters_checked.
  symmetry. apply loop_checked_only.
Qed.

(** X9: unchecked rows are invisible to an export: the run ends in the
    same state as a run on the table with those rows removed. *)
Theorem unchecked_rows_invisible host self st :
  run_export host self st
  = run_export host
      (with_table (filter (λ r, checked r = true) (tableLayers self)) self) st.
Proof.
  set (self' := with_table _ self).
  destruct (output_set self) eqn:Hset.
  2: { rewrite (run_export_no_output host self st Hset).
       by rewrite (run_export_no_output host self' st Hset). }
  assert (∃ out, output_path self = Some out ∧ out ≠ "") as (out & Hout & Hne).
  { unfold output_set in Hset. destruct (output_path self) as [[|c o]|]; try done.
    by eexists. }
  rewrite (run_export_cases host self st out Hout Hne).
  rewrite (run_export_cases host self' st out Hout Hne).
  subst self'. by rewrite assemble_checked_only.
Qed.


(** X11: every call of [run_export] ends in exactly one critical message
    box; it never pushes the success message and never closes the dialog.
    Without an output path the box asks for one; when the layers were
    exported and the artifact written, the box shows the [NameError]
    raised when [Qgis.Info] is looked up. *)
Theorem run_always_ends_in_error_box host self st :
  ∃ msg,
    critical (run_export host self st) = (critical st ++ [msg])%list ∧
    message_bar (run_export host self st) = message_bar st ∧
    dlg_closed (run_export host self st) = dlg_closed st ∧
    (output_set self = false → msg = "Please select an output file") ∧
    (∀ out doc collected st1 st2,
       output_path self = Some out → out ≠ "" →
       assemble host self st = (Return (doc, collected), st1) →
       package out (kml_file host) collected
         (with_files (<[kml_file host := FKml (kml_root doc)]>) st1)
         = (Return tt, st2) →
       msg = "name 'Qgis' is not defined").
Proof.
  destruct (output_set self) eqn:Hset.
  2: { exists "Please select an output file".
       rewrite run_export_no_output by done. repeat split; try done.
       intros out doc collected st1 st2 Hout Hne. unfold output_set in Hset.
       rewrite Hout in Hset. by destruct out. }
  assert (∃ out, output_path self = Some out ∧ out ≠ "") as (out & Hout & Hne).
  { unfold output_set in Hset. destruct (output_path self) as [[|c o]|]; try done.
    by eexists. }
  rewrite (run_export_cases host self st out Hout Hne), assemble_eq.
  pose proof (loop_boxes host (progressBar self) (count_rasters (tableLayers self))
                (rasters_dir host) (tableLayers self) empty_document [] 0
                (begin_progress self st)) as Hloop.
  assert (boxes (begin_progress self st) = boxes st) as Hbegin
    by (unfold begin_progress; by destruct (progressBar self)).
  rewrite Hbegin in Hloop.
  destruct (export_layers _ _ _ _ _ _ _ _ _) as [[[doc collected]|e] st1] eqn:Hrun;
    simpl in Hloop.
  - pose proof (package_boxes out (kml_file host) collected
                  (with_files (<[kml_file host := FKml (kml_root doc)]>) st1)) as Hpack.
    destruct (package _ _ _ _) as [[[]|e] st2] eqn:Hp; simpl in Hpack.
    + exists "name 'Qgis' is not defined".
      assert (boxes st2 = boxes st) as [= Hm Hc Hd] by (by rewrite Hpack).
      destruct (progressBar self); simpl; rewrite Hm, Hc, Hd; by repeat split.
    + exists e. assert (boxes st2 = boxes st) as [= Hm Hc Hd] by (by rewrite Hpack).
      simpl. rewrite Hm, Hc, Hd. repeat split; try done.
      intros out' doc' collected' st1' st2' Hout' _ [= <- <- <-].
      assert (out' = out) as -> by congruence. by rewrite Hp.
  - exists e. injection Hloop as Hm Hc Hd. simpl. rewrite Hm, Hc, Hd.
    repeat split; try done.
Qed.

(** X12: a run writes only at the output path and at its own temporary
    files (the serialized document and the PNGs of the selected rasters):
    every other file is as it was. *)
Theorem run_touches_only_its_files host self st f :
  output_path self ≠ Some f →
  f ≠ kml_file host →
  (∀ row, row ∈ selected_rasters (tableLayers self) →
          f ≠ png_path (rasters_dir host) (source row)) →
  files (run_export host self st) !! f = files st !! f.
Proof.
  intros Hf Hkml Hpng.
  destruct (output_set self) eqn:Hset; [|by rewrite run_export_no_output].
  assert (∃ out, output_path self = Some out ∧ out ≠ "") as (out & Hout & Hne).
  { unfold output_set in Hset. destruct (output_path self) as [[|c o]|]; try done.
    by eexists. }
  assert (f ≠ out) as Hfo by (intros ->; by apply Hf).
  rewrite (run_export_cases host self st out Hout Hne), assemble_eq.
  pose proof (loop_files_frame host (progressBar self) (count_rasters (tableLayers self))
                (rasters_dir host) (tableLayers self) empty_document [] 0
                (begin_progress self st) f Hpng) as Hloop.
  assert (files (begin_progress self st) = files st) as Hbegin
    by (unfold begin_progress; by destruct (progressBar self)).
  rewrite Hbegin in Hloop.
  destruct (export_layers _ _ _ _ _ _ _ _ _) as [[[doc collected]|e] st1];
    simpl in Hloop; [|done].
  pose proof (package_frame out (kml_file host) collected
                (with_files (<[kml_file host := FKml (kml_root doc)]>) st1)
                f Hfo Hkml) as Hpack.
  simpl in Hpack. rewrite lookup_insert_ne in Hpack by done.
  destruct (package _ _ _ _) as [[[]|e] st2]; simpl in Hpack.
  - rewrite final_state_files. by rewrite Hpack.
  - simpl. by rewrite Hpack.
Qed.

(** X13: nothing is cleaned up after an archive was written: the
    serialized document and every PNG are still in the temporary
    directory when the run is over. *)
Theorem temporary_files_remain host self st out doc collected st1 :
  output_path self = Some out → out ≠ "" →
  assemble host self st = (Return (doc, collected), st1) →
  collected ≠ [] →
  (∀ row, row ∈ selected_rasters (tableLayers self) →
          png_saved host (rasters_dir host) (source row) = true) →
  out ≠ kml_file host → out ∉ collected →
  files (run_export host self st) !! kml_file host = Some (FKml (kml_root doc)) ∧
  Forall (λ f, is_png (files (run_export host self st) !! f)) collected.
Proof.
  intros Hout Hne Hasm Hcol Hsaved Hkml Hnotin.
  rewrite (run_export_cases host self st out Hout Hne), Hasm.
  rewrite assemble_eq in Hasm.
  apply loop_collected in Hasm as [Hc Hpng]. simpl in Hc.
  set (st2 := with_files (<[kml_file host := FKml (kml_root doc)]>) st1).
  assert (∀ f, f ≠ out →
            files match package out (kml_file host) collected st2 with
                  | (Raise e, st3) => with_critical e st3
                  | (Return _, st3) =>
                      with_critical "name 'Qgis' is not defined"
                        (if progressBar self
                         then with_progress (setVisible false) st3 else st3)
                  end !! f
            = files st2 !! f) as Hframe.
  { intros f Hf.
    pose proof (package_kmz_frame out (kml_file host) collected st2 f Hcol Hf) as Hp.
    destruct (package _ _ _ _) as [[[]|e] st3]; simpl in Hp.
    - by rewrite final_state_files.
    - done. }
  split.
  - rewrite Hframe by done. subst st2. simpl. by rewrite lookup_insert_eq.
  - apply Forall_forall. intros f Hf.
    rewrite Hframe by (by intros ->).
    subst st2. simpl. rewrite Hc in Hf.
    apply list_elem_of_In, in_map_iff in Hf as (row & <- & Hrow).
    apply list_elem_of_In in Hrow.
    rewrite lookup_insert_ne by (symmetry; apply png_path_not_kml).
    by apply Hpng, Hsaved.
Qed.

(** ** The dialog *)

Lemma lower_app a b : Py.lower (a +:+ b) = Py.lower a +:+ Py.lower b.
Proof.
  induction a as [|x a IH]; [done|].
  exact (f_equal (String (Py.lower_ascii x)) IH).
Qed.

Lemma endswith_app a s : endswith (a +:+ s) s = true.
Proof.
  unfold endswith. rewrite length_append.
  replace (String.length s <=? String.length a + String.length s)%nat with true
    by (symmetry; apply Nat.leb_le; lia).
  replace (String.length a + String.length s - String.length s)%nat
    with (String.length a) by lia.
  rewrite substring_skip. apply String.eqb_refl.
Qed.

Lemma endswith_nonempty s suffix : suffix ≠ "" → endswith s suffix = true → s ≠ "".
Proof.
  intros Hs H ->. unfold endswith in H. destruct suffix; [done|]. done.
Qed.

(** X14: whatever non-empty path the file dialog returns, the stored
    output path is that path, with the extension of the checked format
    appended unless the path already carries it in some letter case; it is
    never empty, so [run_export] will not ask for an output file. *)
Theorem select_output_extension radios path self :
  path ≠ "" →
  let ext := "." +:+ (if radioKMZ_checked radios then "kmz" else "kml") in
  ∃ out,
    output_path (select_output radios path self) = Some out ∧
    endswith (Py.lower out) ext = true ∧
    out = (if endswith (Py.lower path) ext then path else path +:+ ext) ∧
    output_set (select_output radios path self) = true.
Proof.
  intros Hpath ext.
  assert (Py.truthy path = true) as Ht by (by destruct path).
  assert (Py.lower ext = ext) as Hext
    by (subst ext; by destruct (radioKMZ_checked radios)).
  assert (∀ out, out ≠ "" → output_set (with_output out self) = true) as Hset.
  { intros out Hout. unfold output_set. simpl. by destruct out. }
  unfold select_output, chosen_output. rewrite Ht. fold ext.
  destruct (endswith (Py.lower path) ext) eqn:E; simpl negb; cbv iota.
  - exists path. split; [done|]. split; [done|]. split; [done|]. by apply Hset.
  - exists (path +:+ ext). split; [done|]. split.
    { rewrite lower_app, Hext. apply endswith_app. }
    split; [done|]. apply Hset. by destruct path.
Qed.

Lemma any_raster_count rows : any_raster rows = negb (count_rasters rows =? 0).
Proof.
  rewrite count_rasters_selected.
  induction rows as [|row rest IH]; [done|].
  rewrite selected_rasters_cons. simpl.
  destruct (is_raster row && checked row); [|done].
  simpl length. symmetry. apply negb_true_iff, Z.eqb_neq. lia.
Qed.

(** X15: the KML radio is enabled exactly when no checked row is a
    raster, that is when [run_export] would count no raster and write a
    plain document; with a checked raster the KMZ radio gets checked,
    otherwise it is left as it was. *)
Theorem format_radios_follow_rasters rows radios :
  radioKML_enabled (update_format_options rows radios)
    = (count_rasters rows =? 0) ∧
  radioKMZ_checked (update_format_options rows radios)
    = (if count_rasters rows =? 0 then radioKMZ_checked radios else true).
Proof.
  unfold update_format_options. simpl. rewrite any_raster_count.
  by destruct (count_rasters rows =? 0).
Qed.

(** X16: "if a raster is selected, .kmz is forced": once
    [update_format_options] has seen a checked raster, the path stored by
    [select_output] ends in [.kmz] (in some letter case). *)
Theorem kmz_forced_by_raster rows radios path self :
  0 < count_rasters rows → path ≠ "" →
  ∃ out,
    output_path (select_output (update_format_options rows radios) path self)
      = Some out ∧
    endswith (Py.lower out) ".kmz" = true.
Proof.
  intros Hcount Hpath.
  assert (Py.truthy path = true) as Ht by (by destruct path).
  assert (radioKMZ_checked (update_format_options rows radios) = true) as Hkmz.
  { unfold update_format_options. simpl. rewrite any_raster_count.
    destruct (count_rasters rows =? 0) eqn:E; [|done].
    apply Z.eqb_eq in E. lia. }
  unfold select_output, chosen_output. rewrite Hkmz, Ht. simpl negb.
  destruct (endswith (Py.lower path) _) eqn:E; simpl.
  - by exists path.
  - exists (path +:+ ".kmz"). split; [done|].
    rewrite lower_app. apply endswith_app.
Qed.

Lemma read_cells_blank row l : ∀ props,
  Forall (λ jp : nat * string, cell_binding row jp.1 = None) l →
  fold_left (read_cell row) l props = props.
Proof.
  induction l as [|jp l IH]; intros props Hl; [done|].
  apply Forall_cons in Hl as [Hjp Hl]. simpl. rewrite IH by done.
  unfold read_cell. unfold cell_binding in Hjp. simpl in Hjp.
  by destruct (_ && _).
Qed.

Lemma fresh_row_unbound lyr : bindings (read_props (row_of lyr (new_row lyr))) = ∅.
Proof.
  rewrite (read_props_fold (row_of lyr (new_row lyr))).
  apply read_cells_blank. repeat constructor.
Qed.

Lemma rows_of_fresh layers :
  rows_of layers (populate_table layers) = List.map (λ lyr, row_of lyr (new_row lyr)) layers.
Proof.
  unfold rows_of. simpl. induction layers as [|lyr layers IH]; [done|].
  simpl. by rewrite IH.
Qed.

Lemma selected_fresh layers :
  List.map source (selected_rasters (rows_of layers (populate_table layers)))
  = List.map lyr_source (raster_layers layers).
Proof.
  rewrite rows_of_fresh. unfold raster_layers.
  induction layers as [|lyr layers IH]; [done|].
  simpl List.map at 2. rewrite selected_rasters_cons. simpl.
  destruct (is_raster_layer lyr) eqn:Ec; simpl.
  - rewrite filter_cons_True by done. simpl. by rewrite IH.
  - rewrite filter_cons_False by (by rewrite Ec). done.
Qed.

(** X17: a table that has just been rebuilt selects everything and binds
    nothing: there is one row per layer, every row is checked, no row
    yields any property binding, and the rasters an export would render
    are exactly the raster layers, in order. Ticks and bindings made
    before the rebuild are gone. *)
Theorem fresh_table_selects_all layers :
  let rows := rows_of layers (populate_table layers) in
  length rows = length layers ∧
  List.map source rows = List.map lyr_source layers ∧
  Forall (λ row, checked row = true ∧ bindings (read_props row) = ∅) rows ∧
  List.map source (selected_rasters rows) = List.map lyr_source (raster_layers layers).
Proof.
  cbv zeta. split; [|split; [|split]].
  - rewrite rows_of_fresh. apply length_map.
  - rewrite rows_of_fresh, map_map. done.
  - rewrite rows_of_fresh. apply Forall_forall. intros row Hrow.
    apply list_elem_of_In, in_map_iff in Hrow as (lyr & <- & _).
    split; [done|]. exact (fresh_row_unbound lyr).
  - apply selected_fresh.
Qed.

Lemma any_raster_fresh layers :
  any_raster (rows_of layers (populate_table layers))
  = negb (bool_decide (raster_layers layers = [])).
Proof.
  rewrite rows_of_fresh. unfold raster_layers.
  induction layers as [|lyr layers IH]; [done|].
  simpl. destruct (is_raster_layer lyr) eqn:Ec; simpl.
  - rewrite filter_cons_True by done. done.
  - rewrite filter_cons_False by (by rewrite Ec). done.
Qed.

(** X18: adding a [.tif] or [.tiff] file (in any letter case) that loads
    puts a raster layer at the end of the added files and rebuilds the
    table: every row, old or new, is checked again, the KML radio is
    disabled and the KMZ radio checked. *)
Theorem adding_raster_forces_kmz host QgsVectorLayer source_of project path dlg :
  endswith (Py.lower path) ".tif" || endswith (Py.lower path) ".tiff" = true →
  isValid (QgsRasterLayer host path) = true →
  let dlg' := add_layer host QgsVectorLayer source_of project path dlg in
  (∃ lyr, added_file_layers dlg' = (added_file_layers dlg ++ [lyr])%list ∧
          lyr_class lyr = IsRaster ∧ lyr_name lyr = Py.basename path) ∧
  length (table_rows (tableWidget dlg'))
    = S (length project + length (added_file_layers dlg)) ∧
  Forall (λ r, cb_checked r = true) (table_rows (tableWidget dlg')) ∧
  radioKML_enabled (radios dlg') = false ∧
  radioKMZ_checked (radios dlg') = true ∧
  error_boxes dlg' = error_boxes dlg.
Proof.
  intros Hext Hvalid. simpl.
  assert (Py.truthy path = true) as Ht.
  { destruct path; [|done]. done. }
  unfold add_layer. rewrite Ht, Hext. simpl. rewrite Hvalid. simpl.
  unfold refresh. simpl.
  split; [by eexists|]. split.
  { rewrite length_map, !length_app. simpl. lia. }
  split.
  { apply Forall_forall. intros r Hr.
    by apply list_elem_of_In, in_map_iff in Hr as (lyr & <- & _). }
  set (all := (project ++ added_file_layers dlg ++ _)%list).
  assert (any_raster (rows_of all (populate_table all)) = true) as Hany.
  { rewrite any_raster_fresh. apply negb_true_iff, bool_decide_eq_false.
    intros Hnil. unfold raster_layers, all in Hnil.
    rewrite !filter_app in Hnil. rewrite filter_cons_True in Hnil by done.
    apply app_eq_nil in Hnil as [_ Hnil]. apply app_eq_nil in Hnil as [_ Hnil].
    done. }
  unfold update_format_options. simpl.
  change (zip_with row_of all (List.map new_row all))
    with (rows_of all (populate_table all)).
  by rewrite Hany.
Qed.

(** X19: opening the dialog composes the two steps: since the rebuilt
    table checks every row, KML stays available only if there is no raster
    layer at all, in the project or among the added files; one raster
    layer is enough to check KMZ. *)
Theorem show_dialog_radios project dlg :
  let all_layers := (project ++ added_file_layers dlg)%list in
  let dlg' := show_dialog project dlg in
  radioKML_enabled (radios dlg') = bool_decide (raster_layers all_layers = []) ∧
  radioKMZ_checked (radios dlg')
    = (if bool_decide (raster_layers all_layers = []) then radioKMZ_checked (radios dlg)
       else true) ∧
  rows_of all_layers (tableWidget dlg')
    = List.map (λ lyr, row_of lyr (new_row lyr)) all_layers ∧
  added_file_layers dlg' = added_file_layers dlg ∧
  error_boxes dlg' = error_boxes dlg.
Proof.
  cbv zeta. unfold show_dialog, refresh. simpl.
  set (all := (project ++ added_file_layers dlg)%list).
  change (zip_with row_of all (List.map new_row all))
    with (rows_of all (populate_table all)).
  rewrite any_raster_fresh, rows_of_fresh.
  by destruct (bool_decide (raster_layers all = [])).
Qed.

(** X20: the path [select_output] stores passes its own extension test:
    choosing the stored path again stores it unchanged. *)
Theorem chosen_output_stable radios path out :
  chosen_output radios path = Some out →
  chosen_output radios out = Some out.
Proof.
  unfold chosen_output.
  set (ext := "." +:+ (if radioKMZ_checked radios then "kmz" else "kml")).
  assert (Py.lower ext = ext) as Hext
    by (subst ext; by destruct (radioKMZ_checked radios)).
  destruct (Py.truthy path) eqn:Ht; simpl negb; cbv iota; [|done].
  destruct (endswith (Py.lower path) ext) eqn:E; simpl negb; cbv iota;
    intros [= <-].
  - by rewrite Ht, E.
  - assert (Py.truthy (path +:+ ext) = true) as -> by (by destruct path).
    by rewrite lower_app, Hext, endswith_app.
Qed.

(** ** The further properties on the sample hosts *)

Lemma read_props_lookup_witness :
  bindings (read_props Demo2.named_row) !! "name" = Some "Landsat 8".
Proof.
  apply (read_props_lookup Demo2.named_row 0 "Name"). reflexivity.
Defined.

Lemma table_vector_folder_witness :
  ∃ pms,
    children Demo2.towns_row_doc
      = (children empty_document
         ++ [Elem "Folder" [] None (leaf "name" "towns" :: pms)])%list ∧
    Forall2
      (λ feat pm, ∃ els,
         children pm
           = (name_part Demo.host (read_props Sample.towns_row)
                (field_names Demo.towns) feat
              ++ description_part Demo.host (read_props Sample.towns_row)
                   (field_names Demo.towns) feat
              ++ els)%list ∧
         match GetGeometryRef feat with
         | Some geom => geometry_kml Demo.host geom = Return els
         | None => els = []
         end)
      (features Demo.towns) pms.
Proof.
  apply (table_vector_folder Demo.host empty_document Sample.towns_row
           Demo2.towns_row_doc Demo.towns); vm_compute; reflexivity.
Defined.

Lemma table_raster_overlay_witness :
  ∃ go,
    last (children Demo2.named_doc) = Some go ∧ tag go = "GroundOverlay" ∧
    find "visibility" go = Some (leaf "visibility" "1") ∧
    find "name" go = Some (leaf "name" "Landsat 8").
Proof.
  apply (table_raster_overlay Demo2.host empty_document Demo2.named_row
           (rasters_dir Demo2.host) Demo.st0 Demo2.named_doc
           "/tmp/tmpk3x9/rasters/utm.png" Demo2.named_run.2).
  vm_compute. reflexivity.
Defined.

Lemma overlay_href_is_archive_member_witness :
  ∃ go icon,
    last (children (Sample.raster_doc "/data/dem.tif")) = Some go ∧
    find "Icon" go = Some icon ∧
    find "href" icon = Some (leaf "href" "rasters/dem.png") ∧
    png_arcname "/tmp/tmpk3x9/rasters/dem.png" = "rasters/dem.png".
Proof.
  apply (overlay_href_is_archive_member Demo.host empty_document "/data/dem.tif"
           (Demo.props_of [] None) (rasters_dir Demo.host) Demo.st0
           (Sample.raster_doc "/data/dem.tif") "/tmp/tmpk3x9/rasters/dem.png"
           (Sample.raster_run "/data/dem.tif").2).
  vm_compute. reflexivity.
Defined.

Lemma first_failing_geometry_witness :
  add_vector_layer Demo2.host empty_document "/data/mixed.shp" Demo2.no_props
  = Raise "syntax error: line 1, column 3".
Proof.
  apply (first_failing_geometry Demo2.host empty_document "/data/mixed.shp"
           Demo2.no_props Demo2.mixed_layer [Demo.town_A] Demo2.road [Demo.town_B]
           (LineString [(0, 0, None); (1, 1, None)]%Q)).
  - vm_compute. reflexivity.
  - reflexivity.
  - constructor; [|constructor]. intros g Hg. injection Hg as <-.
    eexists. vm_compute. reflexivity.
  - reflexivity.
  - vm_compute. reflexivity.
Defined.

Lemma raster_failure_state_witness :
  Demo2.local_run.1 = Raise "Cannot find coordinate operations" ∧
  files Demo2.local_run.2 !! "/tmp/tmpk3x9/rasters/local.png"
    = Some (FPng "/data/local.tif" 4 4) ∧
  (∀ f, f ≠ "/tmp/tmpk3x9/rasters/local.png" →
        files Demo2.local_run.2 !! f = files Demo.st0 !! f).
Proof.
  split; [vm_compute; reflexivity|].
  destruct (raster_failure_state Demo2.host empty_document "/data/local.tif"
              Demo2.no_props (rasters_dir Demo2.host) Demo.st0
              "Cannot find coordinate operations" Demo2.local_run.2)
    as (_ & Hpng & Hframe).
  - vm_compute. reflexivity.
  - split; [apply Hpng; reflexivity|exact Hframe].
Defined.

Lemma same_base_name_collision_witness :
  "/tmp/tmpk3x9/rasters/dem.png" = "/tmp/tmpk3x9/rasters/dem.png" ∧
  files Demo2.second_dem.2 !! "/tmp/tmpk3x9/rasters/dem.png"
    = Some (FPng "/survey/dem.tif" 100 50) ∧
  ∃ go1 go2,
    children Demo2.second_dem_doc = (children empty_document ++ [go1; go2])%list ∧
    find "Icon" go1 = find "Icon" go2.
Proof.
  apply (same_base_name_collision Demo2.host empty_document
           "/data/dem.tif" "/survey/dem.tif" Demo2.no_props Demo2.no_props
           (rasters_dir Demo2.host) Demo.st0
           Demo2.first_dem_doc "/tmp/tmpk3x9/rasters/dem.png" Demo2.first_dem.2
           Demo2.second_dem_doc "/tmp/tmpk3x9/rasters/dem.png" Demo2.second_dem.2);
    vm_compute; reflexivity.
Defined.

Lemma document_order_witness :
  tag Demo2.partly_doc = "Document" ∧
  List.map tag (children Demo2.partly_doc)
  = ["Folder"; "GroundOverlay"; "GroundOverlay"].
Proof.
  apply (document_order Demo.host Demo2.partly_checked Demo.st0 Demo2.partly_doc
           Demo2.partly_collected (assemble Demo.host Demo2.partly_checked Demo.st0).2).
  vm_compute. reflexivity.
Defined.


Lemma run_touches_only_its_files_witness :
  files (run_export Demo.host Sample.mixed Demo.st0) !! "/home/user/notes.txt"
  = files Demo.st0 !! "/home/user/notes.txt".
Proof.
  apply (run_touches_only_its_files Demo.host Sample.mixed Demo.st0
           "/home/user/notes.txt").
  - discriminate.
  - discriminate.
  - apply Forall_forall. vm_compute. repeat constructor; discriminate.
Defined.

Lemma temporary_files_remain_witness :
  files (run_export Demo.host Sample.mixed Demo.st0) !! kml_file Demo.host
    = Some (FKml (kml_root Sample.mixed_doc)) ∧
  Forall (λ f, is_png (files (run_export Demo.host Sample.mixed Demo.st0) !! f))
    Sample.mixed_collected.
Proof.
  apply (temporary_files_remain Demo.host Sample.mixed Demo.st0 Sample.out
           Sample.mixed_doc Sample.mixed_collected
           (assemble Demo.host Sample.mixed Demo.st0).2).
  - reflexivity.
  - discriminate.
  - vm_compute. reflexivity.
  - vm_compute. discriminate.
  - apply Forall_forall. vm_compute. repeat constructor.
  - discriminate.
  - rewrite list_elem_of_In. vm_compute. intros [H|[H|[]]]; discriminate.
Defined.

Lemma select_output_extension_witness :
  ∃ out,
    output_path (select_output Demo2.kml_radios "/out/Towns.KML" (Sample.plugin []))
      = Some out ∧
    endswith (Py.lower out) ".kml" = true ∧
    out = "/out/Towns.KML" ∧
    output_set (select_output Demo2.kml_radios "/out/Towns.KML" (Sample.plugin []))
      = true.
Proof.
  apply (select_output_extension Demo2.kml_radios "/out/Towns.KML" (Sample.plugin [])).
  discriminate.
Defined.

Lemma kmz_forced_by_raster_witness :
  ∃ out,
    output_path
      (select_output
         (update_format_options [Sample.towns_row; Sample.dem_row] Demo2.kml_radios)
         "/out/map.kml" (Sample.plugin [Sample.towns_row; Sample.dem_row]))
      = Some out ∧
    endswith (Py.lower out) ".kmz" = true.
Proof.
  apply (kmz_forced_by_raster [Sample.towns_row; Sample.dem_row] Demo2.kml_radios
           "/out/map.kml" (Sample.plugin [Sample.towns_row; Sample.dem_row])).
  - reflexivity.
  - discriminate.
Defined.

Lemma adding_raster_forces_kmz_witness :
  let dlg' := add_layer Demo.host Demo2.load_vector id Demo2.project
                "/data/dem.tif" Demo2.dialog0 in
  (∃ lyr, added_file_layers dlg' = (added_file_layers Demo2.dialog0 ++ [lyr])%list ∧
          lyr_class lyr = IsRaster ∧ lyr_name lyr = Py.basename "/data/dem.tif") ∧
  length (table_rows (tableWidget dlg'))
    = S (length Demo2.project + length (added_file_layers Demo2.dialog0)) ∧
  Forall (λ r, cb_checked r = true) (table_rows (tableWidget dlg')) ∧
  radioKML_enabled (radios dlg') = false ∧
  radioKMZ_checked (radios dlg') = true ∧
  error_boxes dlg' = error_boxes Demo2.dialog0.
Proof.
  apply (adding_raster_forces_kmz Demo.host Demo2.load_vector id Demo2.project
           "/data/dem.tif" Demo2.dialog0); reflexivity.
Defined.

Lemma chosen_output_stable_witness :
  chosen_output Demo2.kml_radios "/out/map.kml" = Some "/out/map.kml".
Proof.
  apply (chosen_output_stable Demo2.kml_radios "/out/map" "/out/map.kml").
  reflexivity.
Defined.
